(** * oproperty: an overriding property descriptor

    A shallow embedding of [oproperty.py] and of the part of the Python
    object model it relies on (classes with a linearised ancestor chain and
    an own dictionary, descriptors stored in class dictionaries, instances
    with their own attribute dictionary), followed by the properties of the
    specification that concern it. *)

From Stdlib Require Import ZArith.
From stdpp Require Import base option list strings gmap fin_maps functions.

Open Scope string_scope.
Open Scope list_scope.

(** ** Values, exceptions and the effect monad *)

(** References to descriptor objects ([oproperty] instances) and to
    new-style classes.  Python compares both by identity. *)
Definition did := nat.
Definition classid := nat.

(** A class object.  Under Python 2 a linearisation may contain classic
    classes, which are not instances of [type]; they only ever occur here
    as entries of a linearisation or as the argument of the decorator. *)
Inductive pyclass :=
  | NewStyle (c : classid)
  | Classic (c : nat).

#[global] Instance pyclass_eq_dec : EqDecision pyclass.
Proof. solve_decision. Defined.

(** The objects an accessor can be invoked on: an ordinary instance of a
    new-style class (with the address of its attribute dictionary), or a
    new-style class object itself (an instance of its metaclass). *)
Inductive pyobj :=
  | Instance (c : classid) (addr : nat)
  | ClassObject (c : classid).

#[global] Instance pyobj_eq_dec : EqDecision pyobj.
Proof. solve_decision. Defined.

Inductive value :=
  | VNone
  | VInt (z : Z)
  | VStr (s : string)
  | VDescr (d : did).

Inductive exn :=
  | RuntimeError (msg : string)
  | AttributeError
  | TypeError
  | UnboundLocalError.

(** The outcome of a call: a value, a raised exception, or no outcome
    within the given recursion budget. *)
Inductive result (A : Type) :=
  | Ok (a : A)
  | Raise (e : exn)
  | OutOfFuel.
Arguments Ok {A} a.
Arguments Raise {A} e.
Arguments OutOfFuel {A}.

(** The mutable state that handlers act on: the attribute dictionary of
    every object. *)
Abbreviation heap := (pyobj -> gmap string value).

(** Computations thread the heap; a raised exception keeps the heap as it
    was at the point of the raise. *)
Definition M (A : Type) := heap -> result A * heap.

Definition ret {A} (a : A) : M A := fun h => (Ok a, h).
Definition raise {A} (e : exn) : M A := fun h => (Raise e, h).
Definition out_of_fuel {A} : M A := fun h => (OutOfFuel, h).
Definition lift {A} (r : result A) : M A := fun h => (r, h).
Definition bind {A B} (m : M A) (k : A -> M B) : M B :=
  fun h => match m h with
           | (Ok a, h') => k a h'
           | (Raise e, h') => (Raise e, h')
           | (OutOfFuel, h') => (OutOfFuel, h')
           end.

Notation "'let*' x ':=' m 'in' k" := (bind m (fun x => k))
  (at level 10, x name, m at level 100, k at level 200).

(** [self.name] and [self.name = v] on an object without a descriptor of
    that name in its class. *)
Definition getfield (o : pyobj) (name : string) : M value :=
  fun h => match h o !! name with
           | Some v => (Ok v, h)
           | None => (Raise AttributeError, h)
           end.

Definition setfield (o : pyobj) (name : string) (v : value) : M value :=
  fun h => (Ok VNone, <[o := <[name := v]> (h o)]> h).

(** ** Functions and attributes *)

(** A callable given as a handler: its [__name__], when it has one, and
    its behaviour.  A function always has a [__name__]; other callables,
    such as a [functools.partial] object, need not.  The three kinds of
    handler differ in the arguments they take; [orig] is the callable the
    descriptor passes in. *)
Record getter_fn := { gname : option string;
                      gcall : pyobj -> (unit -> M value) -> M value }.
Record setter_fn := { sname : option string;
                      scall : pyobj -> value -> (value -> M value) -> M value }.
Record deleter_fn := { dname : option string;
                       dcall : pyobj -> (unit -> M value) -> M value }.

(** [f.__name__], given the attribute if there is one: reading an attribute
    that the object does not have raises [AttributeError]. *)
Definition get___name__ (n : option string) : result string :=
  match n with
  | Some s => Ok s
  | None => Raise AttributeError
  end.

(** What a class dictionary can hold under a name. *)
Inductive attr :=
  | AProperty (pget : option (pyobj -> M value))
              (pset : option (pyobj -> value -> M value))
              (pdel : option (pyobj -> M value))
      (* a builtin [property(fget, fset, fdel)] *)
  | AOProperty (d : did)
      (* a reference to an [oproperty] object *)
  | AObject (oget : option (pyobj -> M value))
            (oset : option (pyobj -> value -> M value))
            (odel : option (pyobj -> M value)).
      (* any other object, with the [__get__], [__set__] and [__delete__]
         methods it has, if any *)

(** The class table. *)
Record class_table := {
  (* the linearisation of a new-style class after the class itself *)
  mro_tail : classid -> list pyclass;
  (* the class of a new-style class object (its metaclass) *)
  metaclass : classid -> classid;
  (* the own dictionary of a class *)
  dict : pyclass -> gmap string attr
}.

Definition __mro__ (ct : class_table) (c : classid) : list pyclass :=
  NewStyle c :: mro_tail ct c.

(** [isinstance(tmp, type)] for a class object. *)
Definition isinstance_type (k : pyclass) : bool :=
  match k with NewStyle _ => true | Classic _ => false end.

(** ** The descriptor *)

Module oproperty.

Record t := {
  fget : option getter_fn;
  fset : option setter_fn;
  fdel : option deleter_fn;
  __doc__ : option string;
  _prop_name : string;
  __class_type : option pyclass
}.

(** The descriptor objects, by reference.  [self.x = v] is an update of the
    object that [self] refers to. *)
Definition store := did -> t.

Definition set_fget (v : option getter_fn) (o : t) : t :=
  {| fget := v; fset := fset o; fdel := fdel o; __doc__ := __doc__ o;
     _prop_name := _prop_name o; __class_type := __class_type o |}.
Definition set_fset (v : option setter_fn) (o : t) : t :=
  {| fget := fget o; fset := v; fdel := fdel o; __doc__ := __doc__ o;
     _prop_name := _prop_name o; __class_type := __class_type o |}.
Definition set_fdel (v : option deleter_fn) (o : t) : t :=
  {| fget := fget o; fset := fset o; fdel := v; __doc__ := __doc__ o;
     _prop_name := _prop_name o; __class_type := __class_type o |}.
Definition set_doc (v : option string) (o : t) : t :=
  {| fget := fget o; fset := fset o; fdel := fdel o; __doc__ := v;
     _prop_name := _prop_name o; __class_type := __class_type o |}.
Definition set_prop_name (v : string) (o : t) : t :=
  {| fget := fget o; fset := fset o; fdel := fdel o; __doc__ := __doc__ o;
     _prop_name := v; __class_type := __class_type o |}.
Definition set___class_type (v : option pyclass) (o : t) : t :=
  {| fget := fget o; fset := fset o; fdel := fdel o; __doc__ := __doc__ o;
     _prop_name := _prop_name o; __class_type := v |}.

Definition update (self : did) (f : t -> t) (ds : store) : store :=
  <[self := f (ds self)]> ds.

(** [__init__(self, fget=None, fset=None, fdel=None, doc=None, name=None)].
    The four handler and doc slots are assigned before the name is
    determined, so they are already written when the constructor raises,
    be it for want of anything to name the attribute by or because the
    handler asked for its [__name__] has none. *)
Definition __init__ (self : did)
    (fget_ : option getter_fn) (fset_ : option setter_fn)
    (fdel_ : option deleter_fn) (doc : option string) (name : option string)
    (ds : store) : result unit * store :=
  let ds := update self (set_fget fget_) ds in
  let ds := update self (set_fset fset_) ds in
  let ds := update self (set_fdel fdel_) ds in
  let ds := update self (set_doc doc) ds in
  let name' :=
    match name with
    | Some n => Ok n
    | None =>
        match fget_, fset_, fdel_ with
        | Some f, _, _ => get___name__ (gname f)
        | None, Some f, _ => get___name__ (sname f)
        | None, None, Some f => get___name__ (dname f)
        | None, None, None =>
            Raise (RuntimeError "Can't create a property with no functions!")
        end
    end in
  match name' with
  | Ok n =>
      let ds := update self (set_prop_name n) ds in
      let ds := update self (set___class_type None) ds in
      (Ok tt, ds)
  | Raise e => (Raise e, ds)
  | OutOfFuel => (OutOfFuel, ds)
  end.

Definition set_class_type (self : did) (klass : pyclass) (ds : store) : store :=
  update self (set___class_type (Some klass)) ds.

Definition getter (self : did) (f : getter_fn) (ds : store) : did * store :=
  (self, update self (set_fget (Some f)) ds).

Definition setter (self : did) (f : setter_fn) (ds : store) : did * store :=
  (self, update self (set_fset (Some f)) ds).

Definition deleter (self : did) (f : deleter_fn) (ds : store) : did * store :=
  (self, update self (set_fdel (Some f)) ds).

(** The class methods [override_setter(fset, **kwargs)] and
    [override_deleter(fdel, **kwargs)] construct the object at [self]. *)
Definition override_setter (self : did) (f : setter_fn)
    (fget_ : option getter_fn) (fdel_ : option deleter_fn)
    (doc name : option string) (ds : store) : result unit * store :=
  __init__ self fget_ (Some f) fdel_ doc name ds.

Definition override_deleter (self : did) (f : deleter_fn)
    (fget_ : option getter_fn) (fset_ : option setter_fn)
    (doc name : option string) (ds : store) : result unit * store :=
  __init__ self fget_ fset_ (Some f) doc name ds.

Section Access.

Variable ct : class_table.
Variable ds : store.

(** [obj.__class__]. *)
Definition __class__ (obj : pyobj) : classid :=
  match obj with
  | Instance c _ => c
  | ClassObject c => metaclass ct c
  end.

(** The first loop of [_get_super_attribute]:
    [for pos in range(len(mro)): if mro[pos] == klass: break].
    The result is the value of [pos] after the loop: the index of the first
    occurrence of [klass], the last index when there is none, and no value
    at all when [mro] is empty. *)
Fixpoint find_class (klass : pyclass) (mro : list pyclass) (i : nat)
    (pos : option nat) : option nat :=
  match mro with
  | [] => pos
  | c :: rest =>
      if decide (c = klass) then Some i
      else find_class klass rest (S i) (Some i)
  end.

(** The second loop, over the entries at the indices [pos + 1 ..]. *)
Fixpoint scan (name : string) (rest : list pyclass) : option attr :=
  match rest with
  | [] => None
  | tmp :: rest' =>
      if isinstance_type tmp && bool_decide (is_Some (dict ct tmp !! name))
      then dict ct tmp !! name
      else scan name rest'
  end.

Definition _get_super_attribute (self : did) (obj : pyobj) (name : string)
    : result (option attr) :=
  match __class_type (ds self) with
  | None => Raise (RuntimeError "You must decorate class!")
  | Some klass =>
      let mro :=
        match obj with
        | ClassObject c => __mro__ ct c              (* isinstance(obj, type) *)
        | Instance _ _ => __mro__ ct (__class__ obj)
        end in
      match find_class klass mro 0 None with
      | None => Raise UnboundLocalError
      | Some pos => Ok (scan name (drop (S pos) mro))
      end
  end.

(** [super_attr.__get__(obj)], [super_attr.__set__(obj, value)] and
    [super_attr.__delete__(obj)], by the kind of object [super_attr] is.
    [None] has none of the three methods; a builtin property without the
    function in question raises [AttributeError]; for another [oproperty]
    the call is its own accessor, [rec]. *)
Definition attr_get (rec : did -> pyobj -> M value)
    (super_attr : option attr) (obj : pyobj) : M value :=
  match super_attr with
  | None => raise AttributeError
  | Some (AProperty (Some f) _ _) => f obj
  | Some (AProperty None _ _) => raise AttributeError
  | Some (AOProperty d) => rec d obj
  | Some (AObject (Some f) _ _) => f obj
  | Some (AObject None _ _) => raise AttributeError
  end.

Definition attr_set (rec : did -> pyobj -> value -> M value)
    (super_attr : option attr) (obj : pyobj) (v : value) : M value :=
  match super_attr with
  | None => raise AttributeError
  | Some (AProperty _ (Some f) _) => f obj v
  | Some (AProperty _ None _) => raise AttributeError
  | Some (AOProperty d) => rec d obj v
  | Some (AObject _ (Some f) _) => f obj v
  | Some (AObject _ None _) => raise AttributeError
  end.

Definition attr_delete (rec : did -> pyobj -> M value)
    (super_attr : option attr) (obj : pyobj) : M value :=
  match super_attr with
  | None => raise AttributeError
  | Some (AProperty _ _ (Some f)) => f obj
  | Some (AProperty _ _ None) => raise AttributeError
  | Some (AOProperty d) => rec d obj
  | Some (AObject _ _ (Some f)) => f obj
  | Some (AObject _ _ None) => raise AttributeError
  end.

(** The bodies of the three accessors, with the accessor of a further
    [oproperty] in the chain as a parameter. *)
Definition get_body (rec : did -> pyobj -> M value)
    (self : did) (obj : option pyobj) : M value :=
  match obj with
  | None => ret (VDescr self)
  | Some obj =>
      let* super_attr :=
        lift (_get_super_attribute self obj (_prop_name (ds self))) in
      match fget (ds self) with
      | Some f => gcall f obj (fun _ => attr_get rec super_attr obj)
      | None => attr_get rec super_attr obj
      end
  end.

Definition set_body (rec : did -> pyobj -> value -> M value)
    (self : did) (obj : pyobj) (v : value) : M value :=
  let* super_attr :=
    lift (_get_super_attribute self obj (_prop_name (ds self))) in
  match fset (ds self) with
  | Some f => scall f obj v (fun val => attr_set rec super_attr obj val)
  | None => attr_set rec super_attr obj v
  end.

Definition delete_body (rec : did -> pyobj -> M value)
    (self : did) (obj : pyobj) : M value :=
  let* super_attr :=
    lift (_get_super_attribute self obj (_prop_name (ds self))) in
  match fdel (ds self) with
  | Some f => dcall f obj (fun _ => attr_delete rec super_attr obj)
  | None => attr_delete rec super_attr obj
  end.

(** A chain may hold further [oproperty] objects, and nothing in the code
    bounds how often one accessor ends up in another, so the nested calls
    are counted: [fuel] is the number of nested accessor calls allowed. *)
Fixpoint chain_get (fuel : nat) (d : did) (obj : pyobj) : M value :=
  match fuel with
  | 0 => out_of_fuel
  | S n => get_body (chain_get n) d (Some obj)
  end.

Fixpoint chain_set (fuel : nat) (d : did) (obj : pyobj) (v : value)
    : M value :=
  match fuel with
  | 0 => out_of_fuel
  | S n => set_body (chain_set n) d obj v
  end.

Fixpoint chain_delete (fuel : nat) (d : did) (obj : pyobj) : M value :=
  match fuel with
  | 0 => out_of_fuel
  | S n => delete_body (chain_delete n) d obj
  end.

Definition __get__ (fuel : nat) (self : did) (obj : option pyobj) : M value :=
  get_body (chain_get fuel) self obj.

Definition __set__ (fuel : nat) (self : did) (obj : pyobj) (v : value)
    : M value :=
  set_body (chain_set fuel) self obj v.

Definition __delete__ (fuel : nat) (self : did) (obj : pyobj) : M value :=
  delete_body (chain_delete fuel) self obj.

End Access.

End oproperty.

(** [property_overriding(klass)]: every [oproperty] in the class's own
    dictionary is told the class. *)
Definition property_overriding (ct : class_table) (klass : pyclass)
    (ds : oproperty.store) : oproperty.store :=
  map_fold (fun (name : string) (val : attr) (ds : oproperty.store) =>
              match val with
              | AOProperty d => oproperty.set_class_type d klass ds
              | _ => ds
              end)
           ds (dict ct klass).

(** ** The resolution as the specification words it *)

(** The entries strictly after the first occurrence of [klass]. *)
Fixpoint after (klass : pyclass) (mro : list pyclass) : list pyclass :=
  match mro with
  | [] => []
  | c :: rest => if decide (c = klass) then rest else after klass rest
  end.

(** The own-dictionary entry of the first class that has one. *)
Fixpoint first_own_entry (ct : class_table) (name : string)
    (l : list pyclass) : option attr :=
  match l with
  | [] => None
  | c :: rest =>
      match dict ct c !! name with
      | Some a => Some a
      | None => first_own_entry ct name rest
      end
  end.

(** "Take the instance's runtime type's MRO, find the position of the class
    the descriptor was bound to, scan strictly after that position, and
    return the first ancestor's own-dictionary entry for the target name." *)
Definition claimed_super_attribute (ct : class_table) (klass : pyclass)
    (obj : pyobj) (name : string) : option attr :=
  first_own_entry ct name
    (after klass (__mro__ ct (oproperty.__class__ ct obj))).

(** The linearisation the code consults: the object's own when the object
    is a class, its class's otherwise. *)
Definition consulted_mro (ct : class_table) (obj : pyobj) : list pyclass :=
  match obj with
  | ClassObject c => __mro__ ct c
  | Instance c _ => __mro__ ct c
  end.

(** An ancestor the scan stops at: an instance of [type] whose own
    dictionary has the name. *)
Definition defines (ct : class_table) (name : string) (c : pyclass) : Prop :=
  isinstance_type c = true /\ is_Some (dict ct c !! name).

(** Whether [super_attr.__set__] exists and can store: the chain entry is a
    property with a setter, an object with a [__set__] method, or another
    [oproperty] (which has the method). *)
Definition settable (super_attr : option attr) : bool :=
  match super_attr with
  | None => false
  | Some (AProperty _ pset _) => bool_decide (is_Some pset)
  | Some (AOProperty _) => true
  | Some (AObject _ oset _) => bool_decide (is_Some oset)
  end.

(** The [__name__] of the first handler supplied, in get, set, delete
    order: nothing when no handler is supplied, and the handler's
    [__name__], if it has one, otherwise. *)
Definition first_handler_name (fg : option getter_fn) (fs : option setter_fn)
    (fd : option deleter_fn) : option (option string) :=
  match fg, fs, fd with
  | Some f, _, _ => Some (gname f)
  | None, Some f, _ => Some (sname f)
  | None, None, Some f => Some (dname f)
  | None, None, None => None
  end.

(** ** The classes of the test suite *)

Module Tests.

(** Class identities. *)
Definition object_ : classid := 0.
Definition type_ : classid := 1.
Definition BaseClass : classid := 2.
Definition DerivedClass : classid := 3.

(** [BaseClass.prop]: a property over the instance attribute [val]. *)
Definition base_prop_get (self : pyobj) : M value := getfield self "val".
Definition base_prop_set (self : pyobj) (val : value) : M value :=
  setfield self "val" val.
Definition base_prop_del (self : pyobj) : M value :=
  setfield self "val" (VInt 0).

Definition base_prop : attr :=
  AProperty (Some base_prop_get) (Some base_prop_set) (Some base_prop_del).

(** [def prop(self, orig): return orig() + 1]. *)
Definition derived_prop_getter : getter_fn :=
  {| gname := Some "prop";
     gcall := fun self orig =>
       let* v := orig tt in
       match v with
       | VInt z => ret (VInt (z + 1))
       | _ => raise TypeError
       end |}.

(** [def prop(self, val, orig): orig(val - 10)]. *)
Definition derived_prop_setter : setter_fn :=
  {| sname := Some "prop";
     scall := fun self val orig =>
       match val with
       | VInt z => let* _ := orig (VInt (z - 10)) in ret VNone
       | _ => raise TypeError
       end |}.

(** The descriptor object created in the body of [DerivedClass]. *)
Definition derived_prop : did := 0.

Definition ct : class_table :=
  {| mro_tail := fun c =>
       if decide (c = DerivedClass) then [NewStyle BaseClass; NewStyle object_]
       else if decide (c = object_) then []
       else [NewStyle object_];
     metaclass := fun _ => type_;
     dict := fun k =>
       if decide (k = NewStyle BaseClass) then {[ "prop" := base_prop ]}
       else if decide (k = NewStyle DerivedClass)
            then {[ "prop" := AOProperty derived_prop ]}
       else ∅ |}.

(** The descriptor store after the class statement of [TestBasicImplementation]:
    [@oproperty def prop], [@prop.setter def prop], [@property_overriding]. *)
Definition ds (ds0 : oproperty.store) : oproperty.store :=
  let ds1 := snd (oproperty.__init__ derived_prop (Some derived_prop_getter)
                    None None None None ds0) in
  let ds2 := snd (oproperty.setter derived_prop derived_prop_setter ds1) in
  property_overriding ct (NewStyle DerivedClass) ds2.

(** The same class statement without the decorator
    ([test_without_decorator]). *)
Definition ds_undecorated (ds0 : oproperty.store) : oproperty.store :=
  snd (oproperty.__init__ derived_prop (Some derived_prop_getter)
         None None None None ds0).

(** A descriptor store before any descriptor is constructed. *)
Definition blank : oproperty.store :=
  fun _ => {| oproperty.fget := None; oproperty.fset := None;
              oproperty.fdel := None; oproperty.__doc__ := None;
              oproperty._prop_name := ""; oproperty.__class_type := None |}.

(** A heap where the instance at [addr] has run [BaseClass.__init__]. *)
Definition heap_with_val (c : classid) (addr : nat) (v : value) : heap :=
  fun o => if decide (o = Instance c addr) then {[ "val" := v ]} else ∅.

End Tests.

(** [TestNamings]: a base class with two read-only properties, and a
    derived class whose descriptor is stored under a third name. *)
Module Namings.

Definition object_ : classid := 0.
Definition type_ : classid := 1.
Definition BaseClass : classid := 2.
Definition DerivedClass : classid := 3.

Definition prop1 : attr := AProperty (Some (fun _ => ret (VInt 123))) None None.
Definition prop2 : attr := AProperty (Some (fun _ => ret (VInt 456))) None None.

(** [def prop1(self, orig): return orig()]. *)
Definition prop1_handler : getter_fn :=
  {| gname := Some "prop1"; gcall := fun self orig => orig tt |}.

Definition prop : did := 0.

Definition ct : class_table :=
  {| mro_tail := fun c =>
       if decide (c = DerivedClass) then [NewStyle BaseClass; NewStyle object_]
       else if decide (c = object_) then []
       else [NewStyle object_];
     metaclass := fun _ => type_;
     dict := fun k =>
       if decide (k = NewStyle BaseClass)
       then {[ "prop1" := prop1; "prop2" := prop2 ]}
       else if decide (k = NewStyle DerivedClass)
            then {[ "prop" := AOProperty prop ]}
       else ∅ |}.

(** [prop = oproperty(fget=prop1, name='prop2')] in a decorated class. *)
Definition ds : oproperty.store :=
  property_overriding ct (NewStyle DerivedClass)
    (snd (oproperty.__init__ prop (Some prop1_handler) None None None
            (Some "prop2") Tests.blank)).

End Namings.

(** [test_readonly]: the derived class overrides the getter of a name that
    no base class defines. *)
Module Readonly.

Definition object_ : classid := 0.
Definition type_ : classid := 1.
Definition BaseClass : classid := 2.
Definition Derived : classid := 3.

(** [def readonly(self, orig): return orig() + 1]. *)
Definition readonly_getter : getter_fn :=
  {| gname := Some "readonly"; gcall := gcall Tests.derived_prop_getter |}.

Definition readonly : did := 0.

Definition ct : class_table :=
  {| mro_tail := fun c =>
       if decide (c = Derived) then [NewStyle BaseClass; NewStyle object_]
       else if decide (c = object_) then []
       else [NewStyle object_];
     metaclass := fun _ => type_;
     dict := fun k =>
       if decide (k = NewStyle BaseClass) then {[ "prop" := Tests.base_prop ]}
       else if decide (k = NewStyle Derived)
            then {[ "readonly" := AOProperty readonly ]}
       else ∅ |}.

Definition ds : oproperty.store :=
  property_overriding ct (NewStyle Derived)
    (snd (oproperty.__init__ readonly (Some readonly_getter) None None None
            None Tests.blank)).

End Readonly.

(** [test_multiple_overriding]: two decorated levels over [BaseClass]. *)
Module Stacked.

Definition object_ : classid := 0.
Definition type_ : classid := 1.
Definition BaseClass : classid := 2.
Definition Derived1 : classid := 3.
Definition Derived2 : classid := 4.

(** [def prop(self, orig): return orig() + 5]. *)
Definition plus5 : getter_fn :=
  {| gname := Some "prop";
     gcall := fun self orig =>
       let* v := orig tt in
       match v with
       | VInt z => ret (VInt (z + 5))
       | _ => raise TypeError
       end |}.

Definition prop1 : did := 0.
Definition prop2 : did := 1.

Definition ct : class_table :=
  {| mro_tail := fun c =>
       if decide (c = Derived2)
       then [NewStyle Derived1; NewStyle BaseClass; NewStyle object_]
       else if decide (c = Derived1)
            then [NewStyle BaseClass; NewStyle object_]
       else if decide (c = object_) then []
       else [NewStyle object_];
     metaclass := fun _ => type_;
     dict := fun k =>
       if decide (k = NewStyle BaseClass) then {[ "prop" := Tests.base_prop ]}
       else if decide (k = NewStyle Derived1)
            then {[ "prop" := AOProperty prop1 ]}
       else if decide (k = NewStyle Derived2)
            then {[ "prop" := AOProperty prop2 ]}
       else ∅ |}.

Definition ds : oproperty.store :=
  let ds1 := snd (oproperty.__init__ prop1 (Some Tests.derived_prop_getter)
                    None None None None Tests.blank) in
  let ds1 := property_overriding ct (NewStyle Derived1) ds1 in
  let ds2 := snd (oproperty.__init__ prop2 (Some plus5)
                    None None None None ds1) in
  property_overriding ct (NewStyle Derived2) ds2.

End Stacked.

(** A property on a metaclass, overridden in a derived metaclass; the
    instances of the metaclass are classes. *)
Module Metaclass.

Definition object_ : classid := 0.
Definition type_ : classid := 1.
Definition BaseMeta : classid := 2.
Definition Meta : classid := 3.
Definition C : classid := 4.

(** [BaseMeta.prop]: [@property def prop(cls): return 1]. *)
Definition base_prop : attr :=
  AProperty (Some (fun _ => ret (VInt 1))) None None.

Definition meta_prop : did := 0.

Definition ct : class_table :=
  {| mro_tail := fun c =>
       if decide (c = Meta)
       then [NewStyle BaseMeta; NewStyle type_; NewStyle object_]
       else if decide (c = BaseMeta) then [NewStyle type_; NewStyle object_]
       else if decide (c = object_) then []
       else [NewStyle object_];
     metaclass := fun c => if decide (c = C) then Meta else type_;
     dict := fun k =>
       if decide (k = NewStyle BaseMeta) then {[ "prop" := base_prop ]}
       else if decide (k = NewStyle Meta)
            then {[ "prop" := AOProperty meta_prop ]}
       else ∅ |}.

(** [@property_overriding class Meta(BaseMeta)] with
    [@oproperty def prop(cls, orig): return orig() + 1]. *)
Definition ds : oproperty.store :=
  property_overriding ct (NewStyle Meta)
    (snd (oproperty.__init__ meta_prop (Some Tests.derived_prop_getter)
            None None None None Tests.blank)).

End Metaclass.

(** [test_classmethods]: a class that overrides only the setter of
    [BaseClass.prop], over the class table of [TestBasicImplementation]. *)
Module Classmethods.

(** [def prop(self, val, orig): orig(val + 100)]. *)
Definition plus100 : setter_fn :=
  {| sname := Some "prop";
     scall := fun self val orig =>
       match val with
       | VInt z => let* _ := orig (VInt (z + 100)) in ret VNone
       | _ => raise TypeError
       end |}.

(** A delete-handler that only delegates: [def prop(self, orig): orig()]. *)
Definition delegate : deleter_fn :=
  {| dname := Some "prop";
     dcall := fun self orig => let* _ := orig tt in ret VNone |}.

End Classmethods.

(** [test_with_mixin]: one decorated mixin in front of two unrelated base
    classes. *)
Module Mixin.

Definition object_ : classid := 0.
Definition type_ : classid := 1.
Definition BaseClass1 : classid := 2.
Definition BaseClass2 : classid := 3.
Definition MyMixin : classid := 4.
Definition MixedIn1 : classid := 5.
Definition MixedIn2 : classid := 6.

Definition prop1 : attr := AProperty (Some (fun _ => ret (VInt 123))) None None.
Definition prop2 : attr := AProperty (Some (fun _ => ret (VInt 456))) None None.

Definition mixin_prop : did := 0.

Definition ct : class_table :=
  {| mro_tail := fun c =>
       if decide (c = MixedIn1)
       then [NewStyle MyMixin; NewStyle BaseClass1; NewStyle object_]
       else if decide (c = MixedIn2)
            then [NewStyle MyMixin; NewStyle BaseClass2; NewStyle object_]
       else if decide (c = object_) then []
       else [NewStyle object_];
     metaclass := fun _ => type_;
     dict := fun k =>
       if decide (k = NewStyle BaseClass1) then {[ "prop" := prop1 ]}
       else if decide (k = NewStyle BaseClass2) then {[ "prop" := prop2 ]}
       else if decide (k = NewStyle MyMixin)
            then {[ "prop" := AOProperty mixin_prop ]}
       else ∅ |}.

(** [@property_overriding class MyMixin(object)] with
    [@oproperty def prop(self, orig): return orig() + 5]. *)
Definition ds : oproperty.store :=
  property_overriding ct (NewStyle MyMixin)
    (snd (oproperty.__init__ mixin_prop (Some Stacked.plus5)
            None None None None Tests.blank)).

End Mixin.

(** Handlers that are callables without a [__name__], as
    [functools.partial(f)] is for a function [f]. *)
Module Nameless.

(** [functools.partial(lambda self, orig: orig())]. *)
Definition partial_getter : getter_fn :=
  {| gname := None; gcall := fun self orig => orig tt |}.

(** [functools.partial(lambda self, val, orig: orig(val))]. *)
Definition partial_setter : setter_fn :=
  {| sname := None; scall := fun self val orig => orig val |}.

(** [functools.partial(lambda self, orig: orig())]. *)
Definition partial_deleter : deleter_fn :=
  {| dname := None; dcall := fun self orig => orig tt |}.

End Nameless.

(** ** Properties *)

Import oproperty.

(** *** The two loops of the resolution *)

Section Resolution.

Variable ct : class_table.

(** The index the first loop ends at selects exactly the entries after the
    first occurrence of the class; when the class does not occur the loop
    ends at the last index and nothing is selected. *)
Lemma find_class_after klass mro i pos0 :
  exists p,
    find_class klass mro i pos0
      = match mro with [] => pos0 | _ :: _ => Some (i + p) end
    /\ drop (S p) mro = after klass mro.
Proof.
  revert i pos0. induction mro as [|c rest IH]; intros i pos0; simpl.
  - exists 0. by split.
  - destruct (decide (c = klass)) as [->|Hne].
    + exists 0. split; [by rewrite Nat.add_0_r | by rewrite drop_0].
    + destruct (IH (S i) (Some i)) as (p & Hp & Hdrop).
      destruct rest as [|c' rest'].
      * exists 0. simpl in *. split; [by rewrite Nat.add_0_r | done].
      * exists (S p). split; [|done].
        rewrite Hp. f_equal. lia.
Qed.

Lemma find_class_nonempty klass c rest :
  exists pos,
    find_class klass (c :: rest) 0 None = Some pos
    /\ drop (S pos) (c :: rest) = after klass (c :: rest).
Proof.
  destruct (find_class_after klass (c :: rest) 0 None) as (p & Hp & Hd).
  exists p. by split.
Qed.

Lemma after_split klass mro :
  klass ∈ mro ->
  exists before, mro = before ++ klass :: after klass mro /\ klass ∉ before.
Proof.
  induction mro as [|c rest IH]; intros Hin; [by apply elem_of_nil in Hin|].
  simpl. destruct (decide (c = klass)) as [->|Hne].
  - exists []. split; [done | apply not_elem_of_nil].
  - apply elem_of_cons in Hin as [->|Hin]; [done|].
    destruct (IH Hin) as (before & Heq & Hnot).
    exists (c :: before). split.
    + simpl. by rewrite <- Heq.
    + intros [->|?]%elem_of_cons; [done | by apply Hnot].
Qed.

Lemma after_absent klass mro : klass ∉ mro -> after klass mro = [].
Proof.
  induction mro as [|c rest IH]; intros Hnot; [done|].
  simpl. destruct (decide (c = klass)) as [->|Hne].
  - exfalso. apply Hnot. by left.
  - apply IH. intros ?. apply Hnot. by right.
Qed.

Lemma scan_Some name l a :
  scan ct name l = Some a <->
  exists skipped c rest,
    l = skipped ++ c :: rest
    /\ Forall (fun c' => ~ defines ct name c') skipped
    /\ isinstance_type c = true
    /\ dict ct c !! name = Some a.
Proof.
  induction l as [|tmp rest IH]; simpl.
  - split; [done|]. intros (skipped & c & rest & Heq & _).
    by destruct skipped.
  - destruct (isinstance_type tmp) eqn:Hty; simpl.
    + case_bool_decide as Hdef.
      * split.
        -- intros Ha. exists [], tmp, rest. by repeat split.
        -- intros (skipped & c & rest' & Heq & Hsk & Hc & Hd).
           destruct skipped as [|s skipped]; simplify_eq/=; [done|].
           apply Forall_cons_1 in Hsk as [Hs _]. by destruct Hs.
      * rewrite IH. split.
        -- intros (skipped & c & rest' & -> & Hsk & Hc & Hd).
           exists (tmp :: skipped), c, rest'. repeat split; [|done..].
           constructor; [|done]. by intros [_ ?].
        -- intros (skipped & c & rest' & Heq & Hsk & Hc & Hd).
           destruct skipped as [|s skipped]; simplify_eq/=.
           ++ destruct Hdef. by eexists.
           ++ apply Forall_cons_1 in Hsk as [_ Hsk].
              by exists skipped, c, rest'.
    + rewrite IH. split.
      * intros (skipped & c & rest' & -> & Hsk & Hc & Hd).
        exists (tmp :: skipped), c, rest'. repeat split; [|done..].
        constructor; [|done]. intros [? _]. congruence.
      * intros (skipped & c & rest' & Heq & Hsk & Hc & Hd).
        destruct skipped as [|s skipped]; simplify_eq/=; [congruence|].
        apply Forall_cons_1 in Hsk as [_ Hsk].
        by exists skipped, c, rest'.
Qed.

Lemma scan_None name l :
  scan ct name l = None <-> Forall (fun c => ~ defines ct name c) l.
Proof.
  induction l as [|tmp rest IH]; simpl.
  - split; [by constructor | done].
  - destruct (isinstance_type tmp) eqn:Hty; simpl.
    + case_bool_decide as Hdef.
      * split.
        -- intros Hnone. rewrite Hnone in Hdef. by destruct Hdef.
        -- intros [Hno _]%Forall_cons_1. by destruct Hno.
      * rewrite IH. split.
        -- intros ?. constructor; [by intros [_ ?] | done].
        -- by intros [_ ?]%Forall_cons_1.
    + rewrite IH. split.
      * intros ?. constructor; [|done]. intros [? _]. congruence.
      * by intros [_ ?]%Forall_cons_1.
Qed.

Variable ds : store.

(** For a bound descriptor the resolution never raises. *)
Lemma resolution_bound self obj name klass :
  __class_type (ds self) = Some klass ->
  _get_super_attribute ct ds self obj name
    = Ok (scan ct name (after klass (consulted_mro ct obj))).
Proof.
  intros Hb. unfold _get_super_attribute. rewrite Hb.
  assert (Hm : match obj with
               | ClassObject c => __mro__ ct c
               | Instance _ _ => __mro__ ct (__class__ ct obj)
               end = consulted_mro ct obj) by by destruct obj.
  rewrite Hm. clear Hm.
  assert (exists c rest, consulted_mro ct obj = c :: rest) as (c & rest & ->)
    by (destruct obj; by eexists _, _).
  destruct (find_class_nonempty klass c rest) as (pos & -> & ->). done.
Qed.

(** When the resolution finds nothing, the accessors fail only where the
    chain accessor is called. *)
Lemma nothing_found_is_lazy self obj fuel :
  _get_super_attribute ct ds self obj (_prop_name (ds self)) = Ok None ->
  (forall h,
     __get__ ct ds fuel self (Some obj) h
       = match fget (ds self) with
         | Some f => gcall f obj (fun _ => raise AttributeError) h
         | None => (Raise AttributeError, h)
         end)
  /\ (forall v h,
        __set__ ct ds fuel self obj v h
          = match fset (ds self) with
            | Some f => scall f obj v (fun _ => raise AttributeError) h
            | None => (Raise AttributeError, h)
            end)
  /\ (forall h,
        __delete__ ct ds fuel self obj h
          = match fdel (ds self) with
            | Some f => dcall f obj (fun _ => raise AttributeError) h
            | None => (Raise AttributeError, h)
            end).
Proof.
  intros Hres. repeat split; intros.
  - unfold __get__, get_body, bind, lift. rewrite Hres.
    by destruct (fget (ds self)).
  - unfold __set__, set_body, bind, lift. rewrite Hres.
    by destruct (fset (ds self)).
  - unfold __delete__, delete_body, bind, lift. rewrite Hres.
    by destruct (fdel (ds self)).
Qed.

End Resolution.

(** *** Chain resolution *)

(** C1, as the specification words it, does not hold: for an object that is
    itself a class the code consults the object's own linearisation, not
    that of its runtime type.  With [Meta] overriding [BaseMeta.prop] and
    [C] an instance of [Meta], the runtime type's chain would give
    [BaseMeta]'s property, and the code finds nothing. *)
Lemma claimed_resolution_fails_on_class_object :
  __class_type (Metaclass.ds Metaclass.meta_prop)
    = Some (NewStyle Metaclass.Meta)
  /\ claimed_super_attribute Metaclass.ct (NewStyle Metaclass.Meta)
       (ClassObject Metaclass.C) "prop" = Some Metaclass.base_prop
  /\ _get_super_attribute Metaclass.ct Metaclass.ds Metaclass.meta_prop
       (ClassObject Metaclass.C) "prop" = Ok None
  /\ _get_super_attribute Metaclass.ct Metaclass.ds Metaclass.meta_prop
       (ClassObject Metaclass.C) "prop"
     <> Ok (claimed_super_attribute Metaclass.ct (NewStyle Metaclass.Meta)
              (ClassObject Metaclass.C) "prop").
Proof.
  assert (Hcode : _get_super_attribute Metaclass.ct Metaclass.ds
                    Metaclass.meta_prop (ClassObject Metaclass.C) "prop"
                  = Ok None) by (vm_compute; reflexivity).
  assert (Hspec : claimed_super_attribute Metaclass.ct
                    (NewStyle Metaclass.Meta) (ClassObject Metaclass.C) "prop"
                  = Some Metaclass.base_prop) by (vm_compute; reflexivity).
  split; [vm_compute; reflexivity|].
  split; [exact Hspec|]. split; [exact Hcode|].
  rewrite Hcode, Hspec. discriminate.
Qed.

(** The guard [isinstance(tmp, type)] is the second difference: a classic
    ancestor is passed over even when its own dictionary has the name. *)
Example classic_ancestor_is_skipped :
  let ct := {| mro_tail := fun c => if decide (c = 1) then [Classic 0; NewStyle 0] else [];
               metaclass := fun _ => 0;
               dict := fun k =>
                 if decide (k = Classic 0) then {[ "prop" := AObject None None None ]}
                 else if decide (k = NewStyle 0) then {[ "prop" := Tests.base_prop ]}
                 else ∅ |} in
  let ds := set_class_type 0 (NewStyle 1) Tests.blank in
  _get_super_attribute ct ds 0 (Instance 1 0) "prop" = Ok (Some Tests.base_prop).
Proof. vm_compute. reflexivity. Qed.

(** C1 (amended).  For an access on a descriptor bound to [klass], the
    resolution does not raise.  It takes the linearisation of the object
    itself when the object is a class and of the object's class otherwise,
    passes over everything up to and including the first occurrence of
    [klass], and returns the own-dictionary entry of the first remaining
    ancestor that is an instance of [type] and has the name in its own
    dictionary; it returns nothing when there is no such ancestor.  In that
    case the accessors fail with [AttributeError] only where the chain
    accessor is called: inside the handler if it calls [orig], or directly
    when there is no handler. *)
Theorem resolution_scans_after_bound_class
    (ct : class_table) (ds : store) (self : did) (obj : pyobj)
    (name : string) (klass : pyclass) :
  __class_type (ds self) = Some klass ->
  exists r,
    _get_super_attribute ct ds self obj name = Ok r
    /\ (forall a,
          r = Some a <->
          exists skipped c rest,
            after klass (consulted_mro ct obj) = skipped ++ c :: rest
            /\ Forall (fun c' => ~ defines ct name c') skipped
            /\ isinstance_type c = true
            /\ dict ct c !! name = Some a)
    /\ (r = None <->
        Forall (fun c => ~ defines ct name c)
               (after klass (consulted_mro ct obj)))
    /\ (r = None -> name = _prop_name (ds self) ->
        forall fuel,
          (forall h,
             __get__ ct ds fuel self (Some obj) h
               = match fget (ds self) with
                 | Some f => gcall f obj (fun _ => raise AttributeError) h
                 | None => (Raise AttributeError, h)
                 end)
          /\ (forall v h,
                __set__ ct ds fuel self obj v h
                  = match fset (ds self) with
                    | Some f => scall f obj v (fun _ => raise AttributeError) h
                    | None => (Raise AttributeError, h)
                    end)
          /\ (forall h,
                __delete__ ct ds fuel self obj h
                  = match fdel (ds self) with
                    | Some f => dcall f obj (fun _ => raise AttributeError) h
                    | None => (Raise AttributeError, h)
                    end)).
Proof.
  intros Hb. eexists. split; [by apply resolution_bound|].
  split; [intros a; apply scan_Some|]. split; [apply scan_None|].
  intros Hnone -> fuel. apply nothing_found_is_lazy.
  rewrite (resolution_bound ct ds self obj _ klass Hb). by rewrite Hnone.
Qed.

Lemma resolution_scans_after_bound_class_witness :
  exists r,
    _get_super_attribute Tests.ct (Tests.ds Tests.blank) Tests.derived_prop
      (Instance Tests.DerivedClass 7) "prop" = Ok r
    /\ (r = None <->
        Forall (fun c => ~ defines Tests.ct "prop" c)
          (after (NewStyle Tests.DerivedClass)
             (consulted_mro Tests.ct (Instance Tests.DerivedClass 7)))).
Proof.
  destruct (resolution_scans_after_bound_class Tests.ct
              (Tests.ds Tests.blank) Tests.derived_prop
              (Instance Tests.DerivedClass 7) "prop"
              (NewStyle Tests.DerivedClass))
    as (r & Hr & _ & Hnone & _).
  - vm_compute. reflexivity.
  - exists r. split; [exact Hr | exact Hnone].
Defined.

(** C10.  When the linearisation the code consults does not contain the
    bound class, the first loop ends at the last index, the second loop scans
    nothing, and the resolution returns nothing without raising; the
    accessors then fail only where the chain accessor is called, as they do
    whenever nothing is found. *)
Theorem resolution_without_bound_class_in_mro
    (ct : class_table) (ds : store) (self : did) (obj : pyobj)
    (klass : pyclass) (fuel : nat) :
  __class_type (ds self) = Some klass ->
  klass ∉ consulted_mro ct obj ->
  (forall name, _get_super_attribute ct ds self obj name = Ok None)
  /\ (forall h,
        __get__ ct ds fuel self (Some obj) h
          = match fget (ds self) with
            | Some f => gcall f obj (fun _ => raise AttributeError) h
            | None => (Raise AttributeError, h)
            end)
  /\ (forall v h,
        __set__ ct ds fuel self obj v h
          = match fset (ds self) with
            | Some f => scall f obj v (fun _ => raise AttributeError) h
            | None => (Raise AttributeError, h)
            end)
  /\ (forall h,
        __delete__ ct ds fuel self obj h
          = match fdel (ds self) with
            | Some f => dcall f obj (fun _ => raise AttributeError) h
            | None => (Raise AttributeError, h)
            end).
Proof.
  intros Hb Hnot.
  assert (Hres : forall name, _get_super_attribute ct ds self obj name = Ok None).
  { intros name. rewrite (resolution_bound ct ds self obj name klass Hb).
    by rewrite (after_absent klass _ Hnot). }
  split; [exact Hres|]. apply nothing_found_is_lazy, Hres.
Qed.

Lemma resolution_without_bound_class_in_mro_witness :
  _get_super_attribute Metaclass.ct Metaclass.ds Metaclass.meta_prop
    (ClassObject Metaclass.C) "prop" = Ok None
  /\ __get__ Metaclass.ct Metaclass.ds 0 Metaclass.meta_prop
       (Some (ClassObject Metaclass.C)) (fun _ => ∅)
     = (Raise AttributeError, fun _ => ∅).
Proof.
  destruct (resolution_without_bound_class_in_mro Metaclass.ct Metaclass.ds
              Metaclass.meta_prop (ClassObject Metaclass.C)
              (NewStyle Metaclass.Meta) 0)
    as (Hres & Hget & _).
  - vm_compute. reflexivity.
  - vm_compute. intros Hin.
    repeat (apply elem_of_cons in Hin as [Hin|Hin]; [discriminate|]).
    by apply elem_of_nil in Hin.
  - split; [apply Hres|]. rewrite Hget. vm_compute. reflexivity.
Defined.

(** *** The accessors *)

(** C2.  On a bound descriptor and an instance, the resolution yields the
    chain attribute [super_attr]; with a get-handler, [__get__] is the
    handler applied to the instance and to a zero-argument callable that
    performs [super_attr.__get__(obj)], and its outcome is the handler's;
    without one, [__get__] is [super_attr.__get__(obj)] itself. *)
Theorem get_runs_handler_or_chain
    (ct : class_table) (ds : store) (fuel : nat) (self : did) (obj : pyobj)
    (klass : pyclass) :
  __class_type (ds self) = Some klass ->
  exists super_attr,
    _get_super_attribute ct ds self obj (_prop_name (ds self)) = Ok super_attr
    /\ (forall f h,
          fget (ds self) = Some f ->
          __get__ ct ds fuel self (Some obj) h
            = gcall f obj
                (fun _ => attr_get (chain_get ct ds fuel) super_attr obj) h)
    /\ (forall h,
          fget (ds self) = None ->
          __get__ ct ds fuel self (Some obj) h
            = attr_get (chain_get ct ds fuel) super_attr obj h).
Proof.
  intros Hb. eexists. split; [by apply resolution_bound|].
  split; intros; unfold __get__, get_body, bind, lift;
    rewrite (resolution_bound ct ds self obj _ klass Hb);
    by match goal with H : fget _ = _ |- _ => rewrite H end.
Qed.

Lemma get_runs_handler_or_chain_witness :
  __get__ Tests.ct (Tests.ds Tests.blank) 0 Tests.derived_prop
    (Some (Instance Tests.DerivedClass 7))
    (Tests.heap_with_val Tests.DerivedClass 7 (VInt 123))
  = gcall Tests.derived_prop_getter (Instance Tests.DerivedClass 7)
      (fun _ => Tests.base_prop_get (Instance Tests.DerivedClass 7))
      (Tests.heap_with_val Tests.DerivedClass 7 (VInt 123)).
Proof.
  destruct (get_runs_handler_or_chain Tests.ct (Tests.ds Tests.blank) 0
              Tests.derived_prop (Instance Tests.DerivedClass 7)
              (NewStyle Tests.DerivedClass))
    as (super_attr & Hres & Hget & _).
  - vm_compute. reflexivity.
  - rewrite (Hget Tests.derived_prop_getter); [|vm_compute; reflexivity].
    assert (Hsa : super_attr = Some Tests.base_prop).
    { assert (Hc : _get_super_attribute Tests.ct (Tests.ds Tests.blank)
                     Tests.derived_prop (Instance Tests.DerivedClass 7)
                     (_prop_name (Tests.ds Tests.blank Tests.derived_prop))
                   = Ok (Some Tests.base_prop)) by (vm_compute; reflexivity).
      rewrite Hc in Hres. by injection Hres. }
    rewrite Hsa. reflexivity.
Defined.

(** [test_multiple_overriding]: the chain of [Derived2] holds the
    descriptor of [Derived1], whose accessor is entered once; one unit of
    fuel is enough, and with none the nested call has no outcome. *)
Example stacked_overrides_compose :
  let d2 := Instance Stacked.Derived2 7 in
  let h := Tests.heap_with_val Stacked.Derived2 7 (VInt 123) in
  fst (__get__ Stacked.ct Stacked.ds 1 Stacked.prop2 (Some d2) h)
    = Ok (VInt 129)
  /\ fst (__get__ Stacked.ct Stacked.ds 0 Stacked.prop2 (Some d2) h)
     = OutOfFuel.
Proof. split; vm_compute; reflexivity. Qed.

(** C3.  On a descriptor that was never bound to a class, every instance
    access raises the configuration error and leaves the heap alone,
    whatever handlers the descriptor has. *)
Theorem unbound_access_raises
    (ct : class_table) (ds : store) (fuel : nat) (self : did) (obj : pyobj)
    (v : value) (h : heap) :
  __class_type (ds self) = None ->
  __get__ ct ds fuel self (Some obj) h
    = (Raise (RuntimeError "You must decorate class!"), h)
  /\ __set__ ct ds fuel self obj v h
     = (Raise (RuntimeError "You must decorate class!"), h)
  /\ __delete__ ct ds fuel self obj h
     = (Raise (RuntimeError "You must decorate class!"), h).
Proof.
  intros Hu.
  assert (Hres : _get_super_attribute ct ds self obj (_prop_name (ds self))
                 = Raise (RuntimeError "You must decorate class!")).
  { unfold _get_super_attribute. by rewrite Hu. }
  repeat split.
  - unfold __get__, get_body, bind, lift. by rewrite Hres.
  - unfold __set__, set_body, bind, lift. by rewrite Hres.
  - unfold __delete__, delete_body, bind, lift. by rewrite Hres.
Qed.

(** [test_without_decorator]: the getter handler is there, the decorator is
    not. *)
Lemma unbound_access_raises_witness :
  is_Some (fget (Tests.ds_undecorated Tests.blank Tests.derived_prop))
  /\ __get__ Tests.ct (Tests.ds_undecorated Tests.blank) 0 Tests.derived_prop
       (Some (Instance Tests.DerivedClass 7))
       (Tests.heap_with_val Tests.DerivedClass 7 (VInt 123))
     = (Raise (RuntimeError "You must decorate class!"),
        Tests.heap_with_val Tests.DerivedClass 7 (VInt 123)).
Proof.
  split; [by eexists|].
  apply (unbound_access_raises Tests.ct (Tests.ds_undecorated Tests.blank) 0
           Tests.derived_prop (Instance Tests.DerivedClass 7) VNone).
  reflexivity.
Defined.

(** C6.  On a bound descriptor without a set-handler a write is
    [super_attr.__set__(obj, value)] on the chain attribute that the
    resolution found; when that attribute cannot be set (nothing was found,
    a property without a setter, an object without [__set__]) the write
    raises [AttributeError] and the heap is unchanged. *)
Theorem set_without_handler_delegates
    (ct : class_table) (ds : store) (fuel : nat) (self : did) (obj : pyobj)
    (v : value) (klass : pyclass) :
  __class_type (ds self) = Some klass ->
  fset (ds self) = None ->
  exists super_attr,
    _get_super_attribute ct ds self obj (_prop_name (ds self)) = Ok super_attr
    /\ (forall h,
          __set__ ct ds fuel self obj v h
            = attr_set (chain_set ct ds fuel) super_attr obj v h)
    /\ (settable super_attr = false ->
        forall h,
          __set__ ct ds fuel self obj v h = (Raise AttributeError, h)).
Proof.
  intros Hb Hnone. eexists. split; [by apply resolution_bound|].
  assert (Hset : forall h,
             __set__ ct ds fuel self obj v h
             = attr_set (chain_set ct ds fuel)
                 (scan ct (_prop_name (ds self))
                    (after klass (consulted_mro ct obj))) obj v h).
  { intros h. unfold __set__, set_body, bind, lift.
    rewrite (resolution_bound ct ds self obj _ klass Hb). by rewrite Hnone. }
  split; [exact Hset|].
  intros Hns h. rewrite Hset.
  destruct (scan ct _ _) as [[pg [ps|] pd | d | og [os|] od]|]; try done.
Qed.

(** [test_readonly]: writing ['moo'] to an attribute whose getter alone is
    overridden and that no base class defines. *)
Lemma set_without_handler_delegates_witness :
  __set__ Readonly.ct Readonly.ds 0 Readonly.readonly
    (Instance Readonly.Derived 7) (VStr "moo")
    (Tests.heap_with_val Readonly.Derived 7 (VInt 123))
  = (Raise AttributeError, Tests.heap_with_val Readonly.Derived 7 (VInt 123)).
Proof.
  destruct (set_without_handler_delegates Readonly.ct Readonly.ds 0
              Readonly.readonly (Instance Readonly.Derived 7) (VStr "moo")
              (NewStyle Readonly.Derived))
    as (super_attr & Hres & _ & Hfail).
  - vm_compute. reflexivity.
  - vm_compute. reflexivity.
  - apply Hfail.
    assert (Hc : _get_super_attribute Readonly.ct Readonly.ds
                   Readonly.readonly (Instance Readonly.Derived 7)
                   (_prop_name (Readonly.ds Readonly.readonly))
                 = Ok None) by (vm_compute; reflexivity).
    rewrite Hc in Hres. injection Hres as <-. reflexivity.
Defined.

(** C9.  Class-level access: with no instance, [__get__] returns the
    descriptor itself and does not touch the heap, for any descriptor,
    bound or not. *)
Theorem get_without_instance_returns_self
    (ct : class_table) (ds : store) (fuel : nat) (self : did) (h : heap) :
  __get__ ct ds fuel self None h = (Ok (VDescr self), h).
Proof. reflexivity. Qed.

(** *** Construction and attachment *)

Lemma update_self (self : did) (f : t -> t) (ds : store) :
  update self f ds self = f (ds self).
Proof. unfold update. apply fn_lookup_insert. Qed.

Lemma update_other (self d : did) (f : t -> t) (ds : store) :
  d <> self -> update self f ds d = ds d.
Proof. intros Hd. unfold update. by apply fn_lookup_insert_ne. Qed.

(** The outcome of the constructor, by what it is given. *)
Lemma init_outcome
    (self : did) (fg : option getter_fn) (fs : option setter_fn)
    (fd : option deleter_fn) (doc name : option string) (ds : store) :
  fst (__init__ self fg fs fd doc name ds)
  = match name, first_handler_name fg fs fd with
    | Some _, _ => Ok tt
    | None, Some (Some _) => Ok tt
    | None, Some None => Raise AttributeError
    | None, None =>
        Raise (RuntimeError "Can't create a property with no functions!")
    end.
Proof.
  unfold __init__, first_handler_name.
  destruct name as [n|]; [reflexivity|].
  destruct fg as [[[gn|] gc]|]; [reflexivity..|].
  destruct fs as [[[sn|] sc]|]; [reflexivity..|].
  destruct fd as [[[dn|] dc]|]; reflexivity.
Qed.

(** The object at [self] after the constructor. *)
Lemma init_self
    (self : did) (fg : option getter_fn) (fs : option setter_fn)
    (fd : option deleter_fn) (doc name : option string) (ds : store) :
  snd (__init__ self fg fs fd doc name ds) self
  = match
      match name, first_handler_name fg fs fd with
      | Some n, _ => Some n
      | None, Some (Some n) => Some n
      | None, _ => None
      end
    with
    | Some n =>
        {| fget := fg; fset := fs; fdel := fd; __doc__ := doc;
           _prop_name := n; __class_type := None |}
    | None =>
        {| fget := fg; fset := fs; fdel := fd; __doc__ := doc;
           _prop_name := _prop_name (ds self);
           __class_type := __class_type (ds self) |}
    end.
Proof.
  unfold __init__, first_handler_name.
  destruct name as [n|];
    [cbn -[update]; rewrite !update_self; reflexivity|].
  destruct fg as [[[gn|] gc]|];
    [cbn -[update]; rewrite !update_self; reflexivity..|].
  destruct fs as [[[sn|] sc]|];
    [cbn -[update]; rewrite !update_self; reflexivity..|].
  destruct fd as [[[dn|] dc]|];
    cbn -[update]; rewrite !update_self; reflexivity.
Qed.

Lemma init_other
    (self d : did) (fg : option getter_fn) (fs : option setter_fn)
    (fd : option deleter_fn) (doc name : option string) (ds : store) :
  d <> self -> snd (__init__ self fg fs fd doc name ds) d = ds d.
Proof.
  intros Hd. unfold __init__.
  destruct name as [n|];
    [cbn -[update]; by rewrite !update_other|].
  destruct fg as [[[gn|] gc]|];
    [cbn -[update]; by rewrite !update_other..|].
  destruct fs as [[[sn|] sc]|];
    [cbn -[update]; by rewrite !update_other..|].
  destruct fd as [[[dn|] dc]|];
    cbn -[update]; by rewrite !update_other.
Qed.

(** C4, as the specification words it, does not hold: a handler does not
    make the construction succeed when it is a callable without a
    [__name__] and no name is given, for the constructor then raises
    [AttributeError] on reading [fget.__name__]. *)
Lemma init_with_nameless_handler_raises :
  is_Some (Some Nameless.partial_getter)
  /\ fst (__init__ 0 (Some Nameless.partial_getter) None None None None
            Tests.blank)
     = Raise AttributeError
  /\ fst (__init__ 0 (Some Nameless.partial_getter) None None None None
            Tests.blank)
     <> Ok tt.
Proof.
  split; [by eexists|]. split; [reflexivity | discriminate].
Qed.

(** C4 (amended).  The constructor raises the configuration error exactly
    when no handler and no name is given.  It succeeds exactly when a name
    is given or the first handler supplied, in get, set, delete order, has a
    [__name__]; in the remaining case, no name and a first handler without a
    [__name__], it raises [AttributeError]. *)
Theorem init_succeeds_iff_name_available
    (self : did) (fg : option getter_fn) (fs : option setter_fn)
    (fd : option deleter_fn) (doc name : option string) (ds : store) :
  (fst (__init__ self fg fs fd doc name ds)
     = Raise (RuntimeError "Can't create a property with no functions!")
   <-> fg = None /\ fs = None /\ fd = None /\ name = None)
  /\ (fst (__init__ self fg fs fd doc name ds) = Ok tt
      <-> is_Some name
          \/ exists n, first_handler_name fg fs fd = Some (Some n))
  /\ (fst (__init__ self fg fs fd doc name ds) = Raise AttributeError
      <-> name = None /\ first_handler_name fg fs fd = Some None).
Proof.
  rewrite init_outcome.
  split; [|split].
  - destruct name as [n|].
    { split; [discriminate | by intros (_ & _ & _ & ?)]. }
    destruct fg as [g|]; simpl.
    { destruct (gname g); split;
        try discriminate; by intros (? & _). }
    destruct fs as [s|]; simpl.
    { destruct (sname s); split;
        try discriminate; by intros (_ & ? & _). }
    destruct fd as [d|]; simpl.
    { destruct (dname d); split;
        try discriminate; by intros (_ & _ & ? & _). }
    by split.
  - destruct name as [n|].
    { split; [intros _; left; by eexists | done]. }
    destruct (first_handler_name fg fs fd) as [[n|]|].
    + split; [intros _; right; by eexists | done].
    + split; [discriminate|]. intros [[? ?]|[? ?]]; discriminate.
    + split; [discriminate|]. intros [[? ?]|[? ?]]; discriminate.
  - destruct name as [n|].
    { split; [discriminate | by intros (? & _)]. }
    destruct (first_handler_name fg fs fd) as [[n|]|].
    + split; [discriminate | by intros (_ & ?)].
    + by split.
    + split; [discriminate | by intros (_ & ?)].
Qed.

(** [test_fails_if_no_name], a construction with a name only, and one with
    a named handler only. *)
Lemma init_succeeds_iff_name_available_witness :
  fst (__init__ 0 None None None None None Tests.blank)
    = Raise (RuntimeError "Can't create a property with no functions!")
  /\ fst (__init__ 0 None None None None (Some "prop2") Tests.blank) = Ok tt
  /\ fst (__init__ 0 (Some Namings.prop1_handler) None None None None
            Tests.blank) = Ok tt.
Proof.
  split; [|split].
  - by apply (init_succeeds_iff_name_available 0 None None None None None
                Tests.blank).
  - apply (init_succeeds_iff_name_available 0 None None None None
             (Some "prop2") Tests.blank).
    left. by eexists.
  - apply (init_succeeds_iff_name_available 0 (Some Namings.prop1_handler)
             None None None None Tests.blank).
    right. by eexists.
Defined.

(** C5.  After a successful construction the name to override is the
    explicit name when there is one, whatever the handlers are called;
    otherwise the [__name__] of the get-handler; otherwise that of the
    set-handler; otherwise that of the delete-handler.  The descriptor
    starts out unbound. *)
Theorem init_determines_name
    (self : did) (fg : option getter_fn) (fs : option setter_fn)
    (fd : option deleter_fn) (doc name : option string) (ds : store) :
  let ds' := snd (__init__ self fg fs fd doc name ds) in
  (forall n, name = Some n -> _prop_name (ds' self) = n)
  /\ (forall f n, name = None -> fg = Some f -> gname f = Some n ->
        _prop_name (ds' self) = n)
  /\ (forall f n, name = None -> fg = None -> fs = Some f ->
        sname f = Some n -> _prop_name (ds' self) = n)
  /\ (forall f n, name = None -> fg = None -> fs = None -> fd = Some f ->
        dname f = Some n -> _prop_name (ds' self) = n).
Proof.
  cbv zeta. rewrite init_self.
  repeat split; intros; subst; simpl;
    by repeat match goal with H : _ = Some _ |- _ => rewrite H end.
Qed.

(** [test_name_override] with a handler of another name: the explicit name
    decides, and the read goes to [BaseClass.prop2]. *)
Lemma init_determines_name_witness :
  _prop_name (snd (__init__ Namings.prop (Some Namings.prop1_handler) None
                     None None (Some "prop2") Tests.blank) Namings.prop)
    = "prop2"
  /\ __get__ Namings.ct Namings.ds 0 Namings.prop
       (Some (Instance Namings.DerivedClass 7)) (fun _ => ∅)
     = (Ok (VInt 456), fun _ => ∅).
Proof.
  split.
  - destruct (init_determines_name Namings.prop (Some Namings.prop1_handler)
                None None None (Some "prop2") Tests.blank) as (Hname & _).
    by apply Hname.
  - vm_compute. reflexivity.
Defined.

(** C8.  [getter], [setter] and [deleter] return the reference they were
    called on; in the store only the slot in question of that object has
    changed: its other handlers, its doc, its name and its class are as
    before, and so is every other object. *)
Theorem attachment_fills_one_slot (self : did) (ds : store) :
  (forall f,
     let r := getter self f ds in
     fst r = self
     /\ fget (snd r self) = Some f
     /\ fset (snd r self) = fset (ds self)
     /\ fdel (snd r self) = fdel (ds self)
     /\ __doc__ (snd r self) = __doc__ (ds self)
     /\ _prop_name (snd r self) = _prop_name (ds self)
     /\ __class_type (snd r self) = __class_type (ds self)
     /\ forall d, d <> self -> snd r d = ds d)
  /\ (forall f,
        let r := setter self f ds in
        fst r = self
        /\ fset (snd r self) = Some f
        /\ fget (snd r self) = fget (ds self)
        /\ fdel (snd r self) = fdel (ds self)
        /\ __doc__ (snd r self) = __doc__ (ds self)
        /\ _prop_name (snd r self) = _prop_name (ds self)
        /\ __class_type (snd r self) = __class_type (ds self)
        /\ forall d, d <> self -> snd r d = ds d)
  /\ (forall f,
        let r := deleter self f ds in
        fst r = self
        /\ fdel (snd r self) = Some f
        /\ fget (snd r self) = fget (ds self)
        /\ fset (snd r self) = fset (ds self)
        /\ __doc__ (snd r self) = __doc__ (ds self)
        /\ _prop_name (snd r self) = _prop_name (ds self)
        /\ __class_type (snd r self) = __class_type (ds self)
        /\ forall d, d <> self -> snd r d = ds d).
Proof.
  repeat split; cbn -[update];
    try (rewrite update_self; reflexivity);
    intros d Hd; by apply update_other.
Qed.

Lemma attachment_fills_one_slot_witness :
  let r := setter Tests.derived_prop Tests.derived_prop_setter
             (Tests.ds_undecorated Tests.blank) in
  fst r = Tests.derived_prop
  /\ is_Some (fset (snd r Tests.derived_prop))
  /\ _prop_name (snd r Tests.derived_prop) = "prop"
  /\ snd r 1 = Tests.blank 1.
Proof.
  destruct (attachment_fills_one_slot Tests.derived_prop
              (Tests.ds_undecorated Tests.blank)) as (_ & Hset & _).
  destruct (Hset Tests.derived_prop_setter)
    as (Hself & Hslot & _ & _ & _ & Hname & _ & Hother).
  cbv zeta. split; [exact Hself|]. split; [by rewrite Hslot|].
  split; [by rewrite Hname|]. rewrite Hother; [reflexivity | discriminate].
Defined.

(** *** The two-level chain of the test suite *)

(** The descriptor of [DerivedClass] once the class statement has run, from
    any earlier store. *)
Lemma tests_ds_derived_prop (ds0 : store) :
  Tests.ds ds0 Tests.derived_prop
  = {| fget := Some Tests.derived_prop_getter;
       fset := Some Tests.derived_prop_setter;
       fdel := None;
       __doc__ := None;
       _prop_name := "prop";
       __class_type := Some (NewStyle Tests.DerivedClass) |}.
Proof.
  unfold Tests.ds, property_overriding.
  assert (Hd : dict Tests.ct (NewStyle Tests.DerivedClass)
               = {[ "prop" := AOProperty Tests.derived_prop ]}) by reflexivity.
  rewrite Hd, map_fold_singleton.
  unfold set_class_type, setter, __init__. cbn -[update].
  rewrite !update_self. reflexivity.
Qed.

Lemma tests_resolution (ds0 : store) (addr : nat) :
  _get_super_attribute Tests.ct (Tests.ds ds0) Tests.derived_prop
    (Instance Tests.DerivedClass addr) "prop"
  = Ok (Some Tests.base_prop).
Proof.
  unfold _get_super_attribute. rewrite tests_ds_derived_prop.
  vm_compute. reflexivity.
Qed.

(** C7.  [BaseClass] defines [prop] over the stored attribute [val];
    [DerivedClass] overrides the getter with [orig() + 1] and the setter
    with [orig(val - 10)].  Reading [prop] on a derived instance whose
    stored value is [b] yields [b + 1] and changes nothing; writing [V]
    stores [V - 10], which is then what the base getter returns. *)
Theorem two_level_chain
    (ds0 : store) (fuel : nat) (addr : nat) (h : heap) :
  let d := Instance Tests.DerivedClass addr in
  (forall b : Z,
     h d !! "val" = Some (VInt b) ->
     __get__ Tests.ct (Tests.ds ds0) fuel Tests.derived_prop (Some d) h
       = (Ok (VInt (b + 1)), h))
  /\ (forall V : Z,
        let h' := <[d := <["val" := VInt (V - 10)]> (h d)]> h in
        __set__ Tests.ct (Tests.ds ds0) fuel Tests.derived_prop d (VInt V) h
          = (Ok VNone, h')
        /\ h' d !! "val" = Some (VInt (V - 10))
        /\ Tests.base_prop_get d h' = (Ok (VInt (V - 10)), h')).
Proof.
  intros d. subst d. split.
  - intros b Hb.
    unfold __get__, get_body, bind, lift.
    rewrite tests_ds_derived_prop. cbn [_prop_name fget].
    rewrite (tests_resolution ds0 addr).
    cbn [Tests.derived_prop_getter gcall attr_get Tests.base_prop].
    unfold bind, Tests.base_prop_get, getfield. by rewrite Hb.
  - intros V h'.
    assert (Hval : h' (Instance Tests.DerivedClass addr) !! "val"
                   = Some (VInt (V - 10))).
    { unfold h'. rewrite fn_lookup_insert. apply lookup_insert_eq. }
    split; [|split; [exact Hval|]].
    + unfold __set__, set_body, bind, lift.
      rewrite tests_ds_derived_prop. cbn [_prop_name fset].
      rewrite (tests_resolution ds0 addr). reflexivity.
    + unfold Tests.base_prop_get, getfield. by rewrite Hval.
Qed.

(** [test_simple_get] and [test_simple_set]: 123 reads as 124, and writing
    555 stores 545. *)
Lemma two_level_chain_witness :
  let d := Instance Tests.DerivedClass 7 in
  let h := Tests.heap_with_val Tests.DerivedClass 7 (VInt 123) in
  __get__ Tests.ct (Tests.ds Tests.blank) 0 Tests.derived_prop (Some d) h
    = (Ok (VInt 124), h)
  /\ snd (__set__ Tests.ct (Tests.ds Tests.blank) 0 Tests.derived_prop d
            (VInt 555) h) d !! "val"
     = Some (VInt 545).
Proof.
  intros d h.
  destruct (two_level_chain Tests.blank 0 7 h) as (Hget & Hset).
  split.
  - apply (Hget 123%Z). vm_compute. reflexivity.
  - destruct (Hset 555%Z) as (Heq & Hval & _).
    unfold d. rewrite Heq. exact Hval.
Defined.

(** ** Further properties of the code *)

(** *** The decorator *)

Lemma set___class_type_twice (k1 k2 : option pyclass) (o : t) :
  set___class_type k2 (set___class_type k1 o) = set___class_type k2 o.
Proof. reflexivity. Qed.

(** What the loop of [property_overriding] has done to a descriptor after
    going through a dictionary: nothing when the dictionary does not hold
    it, one assignment of the class when it does (under any number of
    names). *)
Lemma property_overriding_cases
    (ct : class_table) (klass : pyclass) (ds : store) (d : did) :
  (property_overriding ct klass ds d = ds d
   /\ forall name, dict ct klass !! name <> Some (AOProperty d))
  \/ (property_overriding ct klass ds d
        = set___class_type (Some klass) (ds d)
      /\ exists name, dict ct klass !! name = Some (AOProperty d)).
Proof.
  unfold property_overriding.
  apply (map_fold_weak_ind
           (fun (r : store) (m : gmap string attr) =>
              (r d = ds d /\ forall name, m !! name <> Some (AOProperty d))
              \/ (r d = set___class_type (Some klass) (ds d)
                  /\ exists name, m !! name = Some (AOProperty d)))).
  - left. split; [done|]. intros name. by rewrite lookup_empty.
  - intros i x m r Hi IH.
    assert (Hkeep : forall name, name <> i ->
                      <[i:=x]> m !! name = m !! name)
      by (intros; by apply lookup_insert_ne).
    assert (Hold : forall name, is_Some (m !! name) -> name <> i)
      by (intros name [a Ha] ->; congruence).
    destruct x as [pg ps pd | d0 | og os od].
    + destruct IH as [[Hr Hno]|[Hr (name & Hname)]].
      * left. split; [done|]. intros name.
        destruct (decide (name = i)) as [->|Hne];
          [by rewrite lookup_insert_eq | by rewrite Hkeep].
      * right. split; [done|]. exists name.
        rewrite Hkeep; [done | by apply Hold; eexists].
    + destruct (decide (d = d0)) as [<-|Hd].
      * right. split.
        -- unfold set_class_type. rewrite update_self.
           destruct IH as [[-> _]|[-> _]]; reflexivity.
        -- exists i. by rewrite lookup_insert_eq.
      * unfold set_class_type. rewrite (update_other d0 d _ r Hd).
        destruct IH as [[Hr Hno]|[Hr (name & Hname)]].
        -- left. split; [done|]. intros name.
           destruct (decide (name = i)) as [->|Hne];
             [rewrite lookup_insert_eq; congruence | by rewrite Hkeep].
        -- right. split; [done|]. exists name.
           rewrite Hkeep; [done | by apply Hold; eexists].
    + destruct IH as [[Hr Hno]|[Hr (name & Hname)]].
      * left. split; [done|]. intros name.
        destruct (decide (name = i)) as [->|Hne];
          [by rewrite lookup_insert_eq | by rewrite Hkeep].
      * right. split; [done|]. exists name.
        rewrite Hkeep; [done | by apply Hold; eexists].
Qed.

(** X1.  The decorator binds every [oproperty] that the class's own
    dictionary holds, under whatever name: afterwards the descriptor's class
    is the decorated class, and its handlers, doc and name are as before. *)
Theorem property_overriding_binds_own_descriptors
    (ct : class_table) (klass : pyclass) (ds : store) (name : string)
    (d : did) :
  dict ct klass !! name = Some (AOProperty d) ->
  property_overriding ct klass ds d = set___class_type (Some klass) (ds d)
  /\ __class_type (property_overriding ct klass ds d) = Some klass.
Proof.
  intros Hin.
  destruct (property_overriding_cases ct klass ds d)
    as [[_ Hno]|[Hr _]].
  - by destruct (Hno name).
  - split; [exact Hr | by rewrite Hr].
Qed.

Lemma property_overriding_binds_own_descriptors_witness :
  __class_type (property_overriding Tests.ct (NewStyle Tests.DerivedClass)
                  (Tests.ds_undecorated Tests.blank) Tests.derived_prop)
  = Some (NewStyle Tests.DerivedClass).
Proof.
  apply (property_overriding_binds_own_descriptors Tests.ct
           (NewStyle Tests.DerivedClass) (Tests.ds_undecorated Tests.blank)
           "prop" Tests.derived_prop).
  vm_compute. reflexivity.
Defined.

(** X2.  The decorator looks at the class's own dictionary only: a
    descriptor that is not an entry of it, such as one inherited from a base
    class or one of an unrelated class, is left exactly as it was. *)
Theorem property_overriding_leaves_other_descriptors
    (ct : class_table) (klass : pyclass) (ds : store) (d : did) :
  (forall name, dict ct klass !! name <> Some (AOProperty d)) ->
  property_overriding ct klass ds d = ds d.
Proof.
  intros Hno.
  destruct (property_overriding_cases ct klass ds d)
    as [[Hr _]|[_ (name & Hname)]]; [exact Hr | by destruct (Hno name)].
Qed.

(** Decorating [Derived2] of [test_multiple_overriding] does not touch the
    descriptor it inherits from [Derived1]. *)
Lemma property_overriding_leaves_other_descriptors_witness :
  property_overriding Stacked.ct (NewStyle Stacked.Derived2) Tests.blank
    Stacked.prop1
  = Tests.blank Stacked.prop1.
Proof.
  apply (property_overriding_leaves_other_descriptors Stacked.ct
           (NewStyle Stacked.Derived2) Tests.blank Stacked.prop1).
  intros name.
  assert (Hd : dict Stacked.ct (NewStyle Stacked.Derived2)
               = {[ "prop" := AOProperty Stacked.prop2 ]}) by reflexivity.
  rewrite Hd. destruct (decide (name = "prop")) as [->|Hne].
  - rewrite lookup_singleton_eq. discriminate.
  - by rewrite lookup_singleton_ne.
Defined.

(** X3.  Decorating a class a second time changes nothing. *)
Theorem property_overriding_idempotent
    (ct : class_table) (klass : pyclass) (ds : store) (d : did) :
  property_overriding ct klass (property_overriding ct klass ds) d
  = property_overriding ct klass ds d.
Proof.
  destruct (property_overriding_cases ct klass
              (property_overriding ct klass ds) d)
    as [[-> _]|[-> (name & Hname)]]; [done|].
  destruct (property_overriding_cases ct klass ds d)
    as [[_ Hno]|[-> _]]; [by destruct (Hno name) | done].
Qed.

(** X4.  Once the class is decorated, an access through any descriptor of
    its own dictionary no longer raises the configuration error: the
    resolution returns the result of the scan after the decorated class. *)
Theorem decorated_descriptor_resolves
    (ct : class_table) (klass : pyclass) (ds : store) (entry : string)
    (d : did) (obj : pyobj) (name : string) :
  dict ct klass !! entry = Some (AOProperty d) ->
  _get_super_attribute ct (property_overriding ct klass ds) d obj name
  = Ok (scan ct name (after klass (consulted_mro ct obj))).
Proof.
  intros Hin. apply resolution_bound.
  destruct (property_overriding_cases ct klass ds d)
    as [[_ Hno]|[-> _]]; [by destruct (Hno entry) | done].
Qed.

(** [test_without_decorator] with the decorator put back. *)
Lemma decorated_descriptor_resolves_witness :
  _get_super_attribute Tests.ct
    (property_overriding Tests.ct (NewStyle Tests.DerivedClass)
       (Tests.ds_undecorated Tests.blank))
    Tests.derived_prop (Instance Tests.DerivedClass 7) "prop"
  = Ok (Some Tests.base_prop).
Proof.
  rewrite (decorated_descriptor_resolves Tests.ct
             (NewStyle Tests.DerivedClass) (Tests.ds_undecorated Tests.blank)
             "prop" Tests.derived_prop (Instance Tests.DerivedClass 7) "prop").
  - vm_compute. reflexivity.
  - vm_compute. reflexivity.
Defined.

(** *** Construction *)

Lemma resolution_unbound
    (ct : class_table) (ds : store) (self : did) (obj : pyobj)
    (name : string) :
  __class_type (ds self) = None ->
  _get_super_attribute ct ds self obj name
  = Raise (RuntimeError "You must decorate class!").
Proof. intros Hu. unfold _get_super_attribute. by rewrite Hu. Qed.

(** X5.  A successful construction leaves the descriptor unbound, also when
    the object had been bound before: until the decorator (or
    [set_class_type]) runs, every instance access raises the configuration
    error without touching the heap and without calling a handler. *)
Theorem constructed_descriptor_is_unbound
    (self : did) (fg : option getter_fn) (fs : option setter_fn)
    (fd : option deleter_fn) (doc name : option string) (ds : store)
    (ct : class_table) (fuel : nat) (obj : pyobj) (v : value) (h : heap) :
  fst (__init__ self fg fs fd doc name ds) = Ok tt ->
  let ds' := snd (__init__ self fg fs fd doc name ds) in
  __class_type (ds' self) = None
  /\ __get__ ct ds' fuel self (Some obj) h
     = (Raise (RuntimeError "You must decorate class!"), h)
  /\ __set__ ct ds' fuel self obj v h
     = (Raise (RuntimeError "You must decorate class!"), h)
  /\ __delete__ ct ds' fuel self obj h
     = (Raise (RuntimeError "You must decorate class!"), h).
Proof.
  intros Hok ds'.
  assert (Hu : __class_type (ds' self) = None).
  { unfold ds'. rewrite init_self. rewrite init_outcome in Hok.
    destruct name as [n|]; [reflexivity|].
    by destruct (first_handler_name fg fs fd) as [[n|]|]. }
  split; [exact Hu|].
  repeat split.
  - unfold __get__, get_body, bind, lift.
    by rewrite (resolution_unbound ct ds' self obj _ Hu).
  - unfold __set__, set_body, bind, lift.
    by rewrite (resolution_unbound ct ds' self obj _ Hu).
  - unfold __delete__, delete_body, bind, lift.
    by rewrite (resolution_unbound ct ds' self obj _ Hu).
Qed.

(** Constructing the bound descriptor of [DerivedClass] again unbinds it. *)
Lemma constructed_descriptor_is_unbound_witness :
  __class_type (Tests.ds Tests.blank Tests.derived_prop)
    = Some (NewStyle Tests.DerivedClass)
  /\ __get__ Tests.ct
       (snd (__init__ Tests.derived_prop (Some Tests.derived_prop_getter)
               None None None None (Tests.ds Tests.blank)))
       0 Tests.derived_prop (Some (Instance Tests.DerivedClass 7))
       (fun _ => ∅)
     = (Raise (RuntimeError "You must decorate class!"), fun _ => ∅).
Proof.
  split; [vm_compute; reflexivity|].
  destruct (constructed_descriptor_is_unbound Tests.derived_prop
              (Some Tests.derived_prop_getter) None None None None
              (Tests.ds Tests.blank) Tests.ct 0
              (Instance Tests.DerivedClass 7) VNone (fun _ => ∅))
    as (_ & Hget & _); [reflexivity | exact Hget].
Defined.

(** X6.  The constructor writes to [self] only.  It stores the three
    handlers and the doc as given, whether it succeeds or raises; when it
    raises, the name and the class of the object are still the earlier
    ones. *)
Theorem init_stores_handlers
    (self : did) (fg : option getter_fn) (fs : option setter_fn)
    (fd : option deleter_fn) (doc name : option string) (ds : store) :
  let r := __init__ self fg fs fd doc name ds in
  fget (snd r self) = fg
  /\ fset (snd r self) = fs
  /\ fdel (snd r self) = fd
  /\ __doc__ (snd r self) = doc
  /\ (forall d, d <> self -> snd r d = ds d)
  /\ (fst r <> Ok tt ->
      _prop_name (snd r self) = _prop_name (ds self)
      /\ __class_type (snd r self) = __class_type (ds self)).
Proof.
  cbv zeta. rewrite init_self, init_outcome.
  destruct name as [n|].
  { repeat split; try done. intros d Hd; by apply init_other. }
  destruct (first_handler_name fg fs fd) as [[n|]|];
    (repeat split; try done; intros d Hd; by apply init_other).
Qed.

Lemma init_stores_handlers_witness :
  let r := __init__ Tests.derived_prop None None None None None
             (Tests.ds Tests.blank) in
  fst r = Raise (RuntimeError "Can't create a property with no functions!")
  /\ fget (snd r Tests.derived_prop) = None
  /\ _prop_name (snd r Tests.derived_prop) = "prop"
  /\ __class_type (snd r Tests.derived_prop)
     = Some (NewStyle Tests.DerivedClass).
Proof.
  cbv zeta.
  destruct (init_stores_handlers Tests.derived_prop None None None None None
              (Tests.ds Tests.blank))
    as (Hg & _ & _ & _ & _ & Hfail).
  split; [reflexivity|]. split; [exact Hg|].
  destruct Hfail as (Hn & Hc); [discriminate|].
  split.
  - rewrite Hn. vm_compute. reflexivity.
  - rewrite Hc. vm_compute. reflexivity.
Defined.

(** X7.  [override_setter] stores the given set-handler, with the keyword
    handlers beside it.  It succeeds exactly when a name is given or the
    handler consulted for the name, a get-handler passed by keyword if
    there is one and the set-handler otherwise, has a [__name__]; with no
    name and no such [__name__] it raises [AttributeError].  When it
    succeeds the descriptor is unbound and named by the explicit name, else
    by that [__name__].  When no get-handler was passed, a read through the
    descriptor, once bound, is the chain's read. *)
Theorem override_setter_overrides_the_setter_only
    (self : did) (f : setter_fn) (fg : option getter_fn)
    (fd : option deleter_fn) (doc name : option string) (ds : store) :
  let r := override_setter self f fg fd doc name ds in
  let consulted := match fg with Some g => gname g | None => sname f end in
  fset (snd r self) = Some f
  /\ fget (snd r self) = fg
  /\ fdel (snd r self) = fd
  /\ (fst r = Ok tt <-> is_Some name \/ is_Some consulted)
  /\ (fst r = Raise AttributeError <-> name = None /\ consulted = None)
  /\ (forall n,
        name = Some n \/ (name = None /\ consulted = Some n) ->
        _prop_name (snd r self) = n /\ __class_type (snd r self) = None)
  /\ (fg = None ->
      forall ct klass fuel obj h,
        let ds' := set_class_type self klass (snd r) in
        __get__ ct ds' fuel self (Some obj) h
        = attr_get (chain_get ct ds' fuel)
            (scan ct (_prop_name (snd r self))
               (after klass (consulted_mro ct obj))) obj h).
Proof.
  cbv zeta. unfold override_setter.
  rewrite init_outcome, init_self.
  assert (Hfirst : first_handler_name fg (Some f) fd
                   = Some (match fg with
                           | Some g => gname g
                           | None => sname f
                           end)) by by destruct fg.
  rewrite Hfirst. clear Hfirst.
  set (consulted := match fg with Some g => gname g | None => sname f end).
  split; [by destruct name, consulted|].
  split; [by destruct name, consulted|].
  split; [by destruct name, consulted|].
  split.
  { destruct name as [n|], consulted as [c|]; split; try done;
      try (intros _; (left + right); by eexists).
    intros [[? ?]|[? ?]]; discriminate. }
  split.
  { destruct name as [n|], consulted as [c|]; split; try done;
      by intros (? & ?). }
  split.
  { intros n [->|(-> & ->)]; [by destruct consulted | done]. }
  intros -> ct klass fuel obj h.
  unfold __get__, get_body, bind, lift, set_class_type.
  rewrite (resolution_bound ct _ self obj _ klass);
    [|by rewrite update_self].
  rewrite update_self, init_self.
  subst consulted. unfold first_handler_name.
  by destruct name, (sname f).
Qed.

(** X8.  [override_deleter] stores the given delete-handler, with the
    keyword handlers beside it.  It succeeds exactly when a name is given
    or the handler consulted for the name, a get-handler passed by keyword,
    else a set-handler passed by keyword, else the delete-handler, has a
    [__name__]; with no name and no such [__name__] it raises
    [AttributeError].  When it succeeds the descriptor is unbound and named
    by the explicit name, else by that [__name__].  When no set-handler was
    passed, a write through the descriptor, once bound, is the chain's
    write. *)
Theorem override_deleter_overrides_the_deleter_only
    (self : did) (f : deleter_fn) (fg : option getter_fn)
    (fs : option setter_fn) (doc name : option string) (ds : store) :
  let r := override_deleter self f fg fs doc name ds in
  let consulted :=
    match fg, fs with
    | Some g, _ => gname g
    | None, Some s => sname s
    | None, None => dname f
    end in
  fdel (snd r self) = Some f
  /\ fget (snd r self) = fg
  /\ fset (snd r self) = fs
  /\ (fst r = Ok tt <-> is_Some name \/ is_Some consulted)
  /\ (fst r = Raise AttributeError <-> name = None /\ consulted = None)
  /\ (forall n,
        name = Some n \/ (name = None /\ consulted = Some n) ->
        _prop_name (snd r self) = n /\ __class_type (snd r self) = None)
  /\ (fs = None ->
      forall ct klass fuel obj v h,
        let ds' := set_class_type self klass (snd r) in
        __set__ ct ds' fuel self obj v h
        = attr_set (chain_set ct ds' fuel)
            (scan ct (_prop_name (snd r self))
               (after klass (consulted_mro ct obj))) obj v h).
Proof.
  cbv zeta. unfold override_deleter.
  rewrite init_outcome, init_self.
  assert (Hfirst : first_handler_name fg fs (Some f)
                   = Some (match fg, fs with
                           | Some g, _ => gname g
                           | None, Some s => sname s
                           | None, None => dname f
                           end)) by by destruct fg, fs.
  rewrite Hfirst. clear Hfirst.
  set (consulted := match fg, fs with
                    | Some g, _ => gname g
                    | None, Some s => sname s
                    | None, None => dname f
                    end).
  split; [by destruct name, consulted|].
  split; [by destruct name, consulted|].
  split; [by destruct name, consulted|].
  split.
  { destruct name as [n|], consulted as [c|]; split; try done;
      try (intros _; (left + right); by eexists).
    intros [[? ?]|[? ?]]; discriminate. }
  split.
  { destruct name as [n|], consulted as [c|]; split; try done;
      by intros (? & ?). }
  split.
  { intros n [->|(-> & ->)]; [by destruct consulted | done]. }
  intros -> ct klass fuel obj v h.
  unfold __set__, set_body, bind, lift, set_class_type.
  rewrite (resolution_bound ct _ self obj _ klass);
    [|by rewrite update_self].
  rewrite update_self, init_self.
  subst consulted. unfold first_handler_name.
  destruct name, fg as [g|];
    [done | done | by destruct (gname g) | by destruct (dname f)].
Qed.

(** [test_classmethods]: with only the setter overridden the construction
    succeeds under the setter's name, and 123 still reads as 123; with a
    set-handler that has no [__name__] it raises. *)
Lemma override_setter_overrides_the_setter_only_witness :
  let r := override_setter Tests.derived_prop Classmethods.plus100 None None
             None None Tests.blank in
  let ds' := set_class_type Tests.derived_prop (NewStyle Tests.DerivedClass)
               (snd r) in
  let h := Tests.heap_with_val Tests.DerivedClass 7 (VInt 123) in
  fst r = Ok tt
  /\ _prop_name (snd r Tests.derived_prop) = "prop"
  /\ __get__ Tests.ct ds' 0 Tests.derived_prop
       (Some (Instance Tests.DerivedClass 7)) h
     = (Ok (VInt 123), h)
  /\ fst (override_setter Tests.derived_prop Nameless.partial_setter None
            None None None Tests.blank)
     = Raise AttributeError.
Proof.
  cbv zeta.
  destruct (override_setter_overrides_the_setter_only Tests.derived_prop
              Classmethods.plus100 None None None None Tests.blank)
    as (_ & _ & _ & Hok & _ & Hname & Hread).
  destruct (override_setter_overrides_the_setter_only Tests.derived_prop
              Nameless.partial_setter None None None None Tests.blank)
    as (_ & _ & _ & _ & Hraise & _).
  split; [apply Hok; right; by eexists|].
  split; [by apply (Hname "prop"); right|].
  split; [rewrite (Hread eq_refl); vm_compute; reflexivity|].
  by apply Hraise.
Defined.

Lemma override_deleter_overrides_the_deleter_only_witness :
  let r := override_deleter Tests.derived_prop Classmethods.delegate None
             None None None Tests.blank in
  let ds' := set_class_type Tests.derived_prop (NewStyle Tests.DerivedClass)
               (snd r) in
  let d := Instance Tests.DerivedClass 7 in
  fst r = Ok tt
  /\ _prop_name (snd r Tests.derived_prop) = "prop"
  /\ snd (__set__ Tests.ct ds' 0 Tests.derived_prop d (VInt 99)
            (Tests.heap_with_val Tests.DerivedClass 7 (VInt 123))) d
       !! "val"
     = Some (VInt 99)
  /\ fst (override_deleter Tests.derived_prop Nameless.partial_deleter None
            None None None Tests.blank)
     = Raise AttributeError.
Proof.
  cbv zeta.
  destruct (override_deleter_overrides_the_deleter_only Tests.derived_prop
              Classmethods.delegate None None None None Tests.blank)
    as (_ & _ & _ & Hok & _ & Hname & Hwrite).
  destruct (override_deleter_overrides_the_deleter_only Tests.derived_prop
              Nameless.partial_deleter None None None None Tests.blank)
    as (_ & _ & _ & _ & Hraise & _).
  split; [apply Hok; right; by eexists|].
  split; [by apply (Hname "prop"); right|].
  split; [rewrite (Hwrite eq_refl); vm_compute; reflexivity|].
  by apply Hraise.
Defined.

(** *** Writing and deleting *)

(** X9.  On a bound descriptor with a set-handler, a write is the handler
    applied to the instance, the value and a one-argument callable that
    performs the chain's write with whatever value the handler passes; the
    chain is not written to unless the handler calls it. *)
Theorem set_runs_handler
    (ct : class_table) (ds : store) (fuel : nat) (self : did) (obj : pyobj)
    (v : value) (klass : pyclass) (f : setter_fn) :
  __class_type (ds self) = Some klass ->
  fset (ds self) = Some f ->
  exists super_attr,
    _get_super_attribute ct ds self obj (_prop_name (ds self)) = Ok super_attr
    /\ forall h,
         __set__ ct ds fuel self obj v h
         = scall f obj v
             (fun val => attr_set (chain_set ct ds fuel) super_attr obj val) h.
Proof.
  intros Hb Hf. eexists. split; [by apply resolution_bound|].
  intros h. unfold __set__, set_body, bind, lift.
  rewrite (resolution_bound ct ds self obj _ klass Hb). by rewrite Hf.
Qed.

Lemma set_runs_handler_witness :
  let d := Instance Tests.DerivedClass 7 in
  __set__ Tests.ct (Tests.ds Tests.blank) 0 Tests.derived_prop d (VInt 555)
    (fun _ => ∅)
  = scall Tests.derived_prop_setter d (VInt 555)
      (fun val => Tests.base_prop_set d val) (fun _ => ∅).
Proof.
  cbv zeta.
  destruct (set_runs_handler Tests.ct (Tests.ds Tests.blank) 0
              Tests.derived_prop (Instance Tests.DerivedClass 7) (VInt 555)
              (NewStyle Tests.DerivedClass) Tests.derived_prop_setter)
    as (super_attr & Hres & Hset).
  - vm_compute. reflexivity.
  - vm_compute. reflexivity.
  - rewrite Hset.
    assert (Hc : _get_super_attribute Tests.ct (Tests.ds Tests.blank)
                   Tests.derived_prop (Instance Tests.DerivedClass 7)
                   (_prop_name (Tests.ds Tests.blank Tests.derived_prop))
                 = Ok (Some Tests.base_prop)) by (vm_compute; reflexivity).
    rewrite Hc in Hres. injection Hres as <-. reflexivity.
Defined.

(** X10.  On a bound descriptor a delete is the delete-handler applied to
    the instance and a zero-argument callable performing the chain's delete,
    or, without a handler, the chain's delete itself; in the latter case it
    raises [AttributeError] and leaves the heap alone when nothing was
    found, when the chain attribute is a property without a deleter, or when
    it is an object without [__delete__]. *)
Theorem delete_runs_handler_or_chain
    (ct : class_table) (ds : store) (fuel : nat) (self : did) (obj : pyobj)
    (klass : pyclass) :
  __class_type (ds self) = Some klass ->
  exists super_attr,
    _get_super_attribute ct ds self obj (_prop_name (ds self)) = Ok super_attr
    /\ (forall f h,
          fdel (ds self) = Some f ->
          __delete__ ct ds fuel self obj h
          = dcall f obj
              (fun _ => attr_delete (chain_delete ct ds fuel) super_attr obj)
              h)
    /\ (forall h,
          fdel (ds self) = None ->
          __delete__ ct ds fuel self obj h
          = attr_delete (chain_delete ct ds fuel) super_attr obj h)
    /\ (forall h,
          fdel (ds self) = None ->
          super_attr = None
          \/ (exists g s, super_attr = Some (AProperty g s None))
          \/ (exists g s, super_attr = Some (AObject g s None)) ->
          __delete__ ct ds fuel self obj h = (Raise AttributeError, h)).
Proof.
  intros Hb. eexists. split; [by apply resolution_bound|].
  assert (Hdel : forall h,
             __delete__ ct ds fuel self obj h
             = match fdel (ds self) with
               | Some f =>
                   dcall f obj
                     (fun _ => attr_delete (chain_delete ct ds fuel)
                                 (scan ct (_prop_name (ds self))
                                    (after klass (consulted_mro ct obj))) obj)
                     h
               | None =>
                   attr_delete (chain_delete ct ds fuel)
                     (scan ct (_prop_name (ds self))
                        (after klass (consulted_mro ct obj))) obj h
               end).
  { intros h. unfold __delete__, delete_body, bind, lift.
    rewrite (resolution_bound ct ds self obj _ klass Hb).
    by destruct (fdel (ds self)). }
  split; [intros f h Hf; by rewrite Hdel, Hf|].
  split; [intros h Hf; by rewrite Hdel, Hf|].
  intros h Hf Hcases. rewrite Hdel, Hf.
  destruct Hcases as [->|[(g & s & ->)|(g & s & ->)]]; reflexivity.
Qed.

(** [del d.prop] on the derived instance of [TestBasicImplementation], which
    has no delete-handler: the base deleter stores 0. *)
Lemma delete_runs_handler_or_chain_witness :
  let d := Instance Tests.DerivedClass 7 in
  snd (__delete__ Tests.ct (Tests.ds Tests.blank) 0 Tests.derived_prop d
         (Tests.heap_with_val Tests.DerivedClass 7 (VInt 123))) d !! "val"
  = Some (VInt 0).
Proof.
  cbv zeta.
  destruct (delete_runs_handler_or_chain Tests.ct (Tests.ds Tests.blank) 0
              Tests.derived_prop (Instance Tests.DerivedClass 7)
              (NewStyle Tests.DerivedClass))
    as (super_attr & Hres & _ & Hdel & _).
  - vm_compute. reflexivity.
  - rewrite Hdel; [|vm_compute; reflexivity].
    assert (Hc : _get_super_attribute Tests.ct (Tests.ds Tests.blank)
                   Tests.derived_prop (Instance Tests.DerivedClass 7)
                   (_prop_name (Tests.ds Tests.blank Tests.derived_prop))
                 = Ok (Some Tests.base_prop)) by (vm_compute; reflexivity).
    rewrite Hc in Hres. injection Hres as <-. vm_compute. reflexivity.
Defined.

(** *** More on the resolution *)

Lemma after_app_notin (klass : pyclass) (pre l : list pyclass) :
  klass ∉ pre -> after klass (pre ++ l) = after klass l.
Proof.
  induction pre as [|c pre IH]; intros Hnot; [done|].
  simpl. destruct (decide (c = klass)) as [->|Hne].
  - exfalso. apply Hnot. by left.
  - apply IH. intros ?. apply Hnot. by right.
Qed.

Lemma after_NoDup (klass : pyclass) (mro : list pyclass) :
  NoDup mro -> klass ∉ after klass mro.
Proof.
  induction 1 as [|c rest Hc Hnd IH]; simpl; [apply not_elem_of_nil|].
  destruct (decide (c = klass)) as [->|Hne]; [exact Hc | exact IH].
Qed.

(** X11.  Classes that come before the bound class in the linearisation play
    no part: if the linearisation of one object is that of another with
    further classes in front, none of them the bound class, both objects
    resolve alike.  This is how a subclass that does not declare the
    attribute again inherits the override. *)
Theorem resolution_ignores_classes_before_bound_class
    (ct : class_table) (ds : store) (self : did) (obj1 obj2 : pyobj)
    (name : string) (pre : list pyclass) :
  consulted_mro ct obj2 = pre ++ consulted_mro ct obj1 ->
  (forall klass, __class_type (ds self) = Some klass -> klass ∉ pre) ->
  _get_super_attribute ct ds self obj2 name
  = _get_super_attribute ct ds self obj1 name.
Proof.
  intros Hmro Hpre.
  destruct (__class_type (ds self)) as [klass|] eqn:Hb.
  - rewrite !(resolution_bound ct ds self _ name klass Hb).
    rewrite Hmro, after_app_notin; [done | by apply Hpre].
  - by rewrite !resolution_unbound.
Qed.

(** [test_with_other_overriding]: for the descriptor of [Derived1] an
    instance of its subclass resolves like an instance of [Derived1]. *)
Lemma resolution_ignores_classes_before_bound_class_witness :
  _get_super_attribute Stacked.ct Stacked.ds Stacked.prop1
    (Instance Stacked.Derived2 7) "prop"
  = _get_super_attribute Stacked.ct Stacked.ds Stacked.prop1
      (Instance Stacked.Derived1 8) "prop".
Proof.
  apply (resolution_ignores_classes_before_bound_class Stacked.ct Stacked.ds
           Stacked.prop1 (Instance Stacked.Derived1 8)
           (Instance Stacked.Derived2 7) "prop" [NewStyle Stacked.Derived2]).
  - reflexivity.
  - intros klass Hk. vm_compute in Hk. injection Hk as <-.
    intros Hin. apply elem_of_cons in Hin as [Hin|Hin]; [discriminate|].
    by apply elem_of_nil in Hin.
Defined.

(** One descriptor object stored under the same name in a class and in its
    base, and bound to the class: the resolution returns the entry of the
    base, which is the descriptor itself. *)
Example shared_descriptor_resolves_to_itself :
  let ct := {| mro_tail := fun c =>
                 if decide (c = 2) then [NewStyle 1; NewStyle 0]
                 else if decide (c = 1) then [NewStyle 0]
                 else [];
               metaclass := fun _ => 0;
               dict := fun k =>
                 if decide (k = NewStyle 2) then {[ "prop" := AOProperty 0 ]}
                 else if decide (k = NewStyle 1)
                      then {[ "prop" := AOProperty 0 ]}
                 else ∅ |} in
  let ds := property_overriding ct (NewStyle 2)
              (property_overriding ct (NewStyle 1) Tests.blank) in
  __class_type (ds 0) = Some (NewStyle 2)
  /\ _get_super_attribute ct ds 0 (Instance 2 0) "prop"
     = Ok (Some (AOProperty 0)).
Proof. split; vm_compute; reflexivity. Qed.

(** X12.  In a linearisation without repetitions, what the resolution
    returns is the own-dictionary entry of a class that stands after the
    bound class and is not the bound class.  So when the descriptor object
    is an entry of no class other than the one it is bound to, the
    resolution does not return the descriptor itself. *)
Theorem resolution_finds_another_class
    (ct : class_table) (ds : store) (self : did) (obj : pyobj)
    (name : string) (klass : pyclass) (a : attr) :
  __class_type (ds self) = Some klass ->
  NoDup (consulted_mro ct obj) ->
  _get_super_attribute ct ds self obj name = Ok (Some a) ->
  (exists before skipped c rest,
     consulted_mro ct obj = before ++ klass :: skipped ++ c :: rest
     /\ c <> klass
     /\ isinstance_type c = true
     /\ dict ct c !! name = Some a)
  /\ ((forall c' n, dict ct c' !! n = Some (AOProperty self) -> c' = klass) ->
      a <> AOProperty self).
Proof.
  intros Hb Hnd Hres.
  rewrite (resolution_bound ct ds self obj name klass Hb) in Hres.
  injection Hres as Hscan.
  apply scan_Some in Hscan as (skipped & c & rest & Hafter & _ & Hty & Hd).
  assert (Hne : c <> klass /\
                exists before,
                  consulted_mro ct obj
                  = before ++ klass :: skipped ++ c :: rest).
  { destruct (decide (klass ∈ consulted_mro ct obj)) as [Hin|Hnot].
    - destruct (after_split klass _ Hin) as (before & Hsplit & _).
      split; [|exists before; by rewrite <- Hafter].
      intros ->. apply (after_NoDup klass _ Hnd). rewrite Hafter.
      apply elem_of_app. right. by left.
    - rewrite (after_absent klass _ Hnot) in Hafter. by destruct skipped. }
  destruct Hne as (Hne & before & Hsplit).
  split; [by exists before, skipped, c, rest|].
  intros Honly ->. apply Hne. by apply (Honly c name).
Qed.

Lemma resolution_finds_another_class_witness :
  (exists c,
     c <> NewStyle Tests.DerivedClass
     /\ dict Tests.ct c !! "prop" = Some Tests.base_prop)
  /\ Tests.base_prop <> AOProperty Tests.derived_prop.
Proof.
  destruct (resolution_finds_another_class Tests.ct (Tests.ds Tests.blank)
              Tests.derived_prop (Instance Tests.DerivedClass 7) "prop"
              (NewStyle Tests.DerivedClass) Tests.base_prop)
    as ((before & skipped & c & rest & _ & Hne & _ & Hd) & Hself).
  - vm_compute. reflexivity.
  - assert (Hm : consulted_mro Tests.ct (Instance Tests.DerivedClass 7)
                 = [NewStyle 3; NewStyle 2; NewStyle 0]) by reflexivity.
    rewrite Hm.
    repeat (apply NoDup_cons_2;
            [intros Hin;
             repeat (apply elem_of_cons in Hin as [Hin|Hin]; [discriminate|]);
             by apply elem_of_nil in Hin|]).
    apply NoDup_nil_2.
  - vm_compute. reflexivity.
  - split; [exists c; by split|].
    apply Hself. intros c' n Hc'. cbn in Hc'.
    destruct (decide (c' = NewStyle Tests.BaseClass)) as [->|?].
    + destruct (decide (n = "prop")) as [->|?].
      * rewrite lookup_singleton_eq in Hc'. discriminate.
      * by rewrite lookup_singleton_ne in Hc'.
    + destruct (decide (c' = NewStyle Tests.DerivedClass)) as [->|?];
        [done | by rewrite lookup_empty in Hc'].
Defined.

Lemma find_class_found (klass : pyclass) (mro : list pyclass)
    (i0 : nat) (pos0 : option nat) :
  klass ∈ mro ->
  exists i,
    find_class klass mro i0 pos0 = Some (i0 + i)
    /\ mro !! i = Some klass
    /\ forall j, j < i -> mro !! j <> Some klass.
Proof.
  revert i0 pos0. induction mro as [|c rest IH]; intros i0 pos0 Hin.
  - by apply elem_of_nil in Hin.
  - simpl. destruct (decide (c = klass)) as [->|Hne].
    + exists 0. split; [by rewrite Nat.add_0_r|]. split; [done|]. lia.
    + apply elem_of_cons in Hin as [->|Hin]; [done|].
      destruct (IH (S i0) (Some i0) Hin) as (i & Hi & Hat & Hmin).
      exists (S i). split; [rewrite Hi; f_equal; lia|]. split; [done|].
      intros [|j] Hj; simpl; [congruence | apply Hmin; lia].
Qed.

Lemma find_class_absent (klass : pyclass) (mro : list pyclass)
    (i0 : nat) (pos0 : option nat) :
  klass ∉ mro ->
  find_class klass mro i0 pos0
  = match mro with [] => pos0 | _ :: _ => Some (i0 + length mro - 1) end.
Proof.
  revert i0 pos0. induction mro as [|c rest IH]; intros i0 pos0 Hnot; [done|].
  simpl. destruct (decide (c = klass)) as [->|Hne].
  - exfalso. apply Hnot. by left.
  - rewrite IH; [|intros ?; apply Hnot; by right].
    destruct rest; simpl; f_equal; lia.
Qed.

(** X13.  The first loop of the resolution ends at the index of the first
    occurrence of the bound class; when the class does not occur it ends at
    the last index, and on an empty sequence it assigns no index at all. *)
Theorem find_class_first_occurrence (klass : pyclass) (mro : list pyclass) :
  (klass ∈ mro ->
   exists i,
     find_class klass mro 0 None = Some i
     /\ mro !! i = Some klass
     /\ forall j, j < i -> mro !! j <> Some klass)
  /\ (klass ∉ mro ->
      find_class klass mro 0 None
      = match mro with [] => None | _ :: _ => Some (length mro - 1) end).
Proof.
  split.
  - intros Hin. destruct (find_class_found klass mro 0 None Hin)
      as (i & Hi & Hat & Hmin). by exists i.
  - intros Hnot. by rewrite (find_class_absent klass mro 0 None Hnot).
Qed.

Lemma find_class_first_occurrence_witness :
  find_class (NewStyle 2) [NewStyle 3; NewStyle 2; NewStyle 0] 0 None = Some 1
  /\ find_class (NewStyle 5) [NewStyle 3; NewStyle 2; NewStyle 0] 0 None
     = Some 2.
Proof.
  destruct (find_class_first_occurrence (NewStyle 2)
              [NewStyle 3; NewStyle 2; NewStyle 0]) as (Hfound & _).
  destruct (find_class_first_occurrence (NewStyle 5)
              [NewStyle 3; NewStyle 2; NewStyle 0]) as (_ & Habsent).
  split.
  - destruct Hfound as (i & Hi & _); [right; by left|].
    rewrite Hi. vm_compute in Hi. symmetry. exact Hi.
  - apply Habsent. intros Hin.
    repeat (apply elem_of_cons in Hin as [Hin|Hin]; [discriminate|]).
    by apply elem_of_nil in Hin.
Defined.

(** *** Stacked descriptors and binding *)

(** X14.  Two override levels compose in order.  When the chain of a bound
    descriptor [d2] leads to a bound descriptor [d1], and both have a
    get-handler, a read through [d2] with room for one nested accessor call
    is the handler of [d2] applied to a callable that runs the handler of
    [d1], which in turn is given the callable for the chain attribute that
    [d1] resolves to. *)
Theorem stacked_get_composes
    (ct : class_table) (ds : store) (fuel : nat) (d1 d2 : did) (obj : pyobj)
    (k1 k2 : pyclass) (f1 f2 : getter_fn) :
  __class_type (ds d2) = Some k2 ->
  __class_type (ds d1) = Some k1 ->
  fget (ds d2) = Some f2 ->
  fget (ds d1) = Some f1 ->
  _get_super_attribute ct ds d2 obj (_prop_name (ds d2))
    = Ok (Some (AOProperty d1)) ->
  exists super_attr,
    _get_super_attribute ct ds d1 obj (_prop_name (ds d1)) = Ok super_attr
    /\ forall h,
         __get__ ct ds (S fuel) d2 (Some obj) h
         = gcall f2 obj
             (fun _ =>
                gcall f1 obj
                  (fun _ => attr_get (chain_get ct ds fuel) super_attr obj))
             h.
Proof.
  intros Hb2 Hb1 Hf2 Hf1 Hres2.
  eexists. split; [by apply (resolution_bound ct ds d1 obj _ k1)|].
  intros h. unfold __get__, get_body at 1, bind at 1, lift at 1.
  rewrite Hres2, Hf2.
  cbn [attr_get chain_get]. unfold get_body, bind, lift.
  rewrite (resolution_bound ct ds d1 obj _ k1 Hb1), Hf1. reflexivity.
Qed.

(** [test_multiple_overriding]: 123 reads as 123 + 1 + 5. *)
Lemma stacked_get_composes_witness :
  let h := Tests.heap_with_val Stacked.Derived2 7 (VInt 123) in
  __get__ Stacked.ct Stacked.ds 1 Stacked.prop2
    (Some (Instance Stacked.Derived2 7)) h
  = (Ok (VInt 129), h).
Proof.
  cbv zeta.
  destruct (stacked_get_composes Stacked.ct Stacked.ds 0 Stacked.prop1
              Stacked.prop2 (Instance Stacked.Derived2 7)
              (NewStyle Stacked.Derived1) (NewStyle Stacked.Derived2)
              Tests.derived_prop_getter Stacked.plus5)
    as (super_attr & Hres & Hget);
    [vm_compute; reflexivity..|].
  rewrite Hget.
  assert (Hc : _get_super_attribute Stacked.ct Stacked.ds Stacked.prop1
                 (Instance Stacked.Derived2 7)
                 (_prop_name (Stacked.ds Stacked.prop1))
               = Ok (Some Tests.base_prop)) by (vm_compute; reflexivity).
  rewrite Hc in Hres. injection Hres as <-. vm_compute. reflexivity.
Defined.

(** X15.  Binding changes the class of [self] and nothing else; binding
    again replaces the earlier class; and attaching a handler before or
    after binding gives the same store. *)
Theorem binding_and_attachment_commute
    (self : did) (k1 k2 : pyclass) (ds : store) (d : did) :
  set_class_type self k2 ds d
    = (if decide (d = self) then set___class_type (Some k2) (ds d) else ds d)
  /\ set_class_type self k2 (set_class_type self k1 ds) d
     = set_class_type self k2 ds d
  /\ (forall f,
        snd (getter self f (set_class_type self k1 ds)) d
        = set_class_type self k1 (snd (getter self f ds)) d)
  /\ (forall f,
        snd (setter self f (set_class_type self k1 ds)) d
        = set_class_type self k1 (snd (setter self f ds)) d)
  /\ (forall f,
        snd (deleter self f (set_class_type self k1 ds)) d
        = set_class_type self k1 (snd (deleter self f ds)) d).
Proof.
  unfold set_class_type, getter, setter, deleter. cbn -[update].
  destruct (decide (d = self)) as [->|Hd].
  - repeat split; intros; by rewrite !update_self.
  - repeat split; intros; by rewrite !update_other.
Qed.

(** *** Mixins *)

Lemma after_first_occurrence (klass : pyclass) (pre post : list pyclass) :
  klass ∉ pre -> after klass (pre ++ klass :: post) = post.
Proof.
  intros Hnot. rewrite after_app_notin by done.
  simpl. by rewrite decide_True.
Qed.

(** X16.  The base that an override reaches is decided by the object, not by
    the descriptor: when the object's linearisation has the bound class
    followed by classes that do not define the name and then by a class
    (an instance of [type]) that does, the resolution returns that class's
    own entry, whatever stands before the bound class. *)
Theorem resolution_reaches_next_defining_class
    (ct : class_table) (ds : store) (self : did) (obj : pyobj)
    (name : string) (klass c : pyclass) (pre skipped rest : list pyclass)
    (a : attr) :
  __class_type (ds self) = Some klass ->
  consulted_mro ct obj = pre ++ klass :: skipped ++ c :: rest ->
  klass ∉ pre ->
  Forall (fun c' => ~ defines ct name c') skipped ->
  isinstance_type c = true ->
  dict ct c !! name = Some a ->
  _get_super_attribute ct ds self obj name = Ok (Some a).
Proof.
  intros Hb Hmro Hpre Hskip Hty Hd.
  rewrite (resolution_bound ct ds self obj name klass Hb). f_equal.
  rewrite Hmro, after_first_occurrence by done.
  apply scan_Some. by exists skipped, c, rest.
Qed.

(** [test_with_mixin]: the one descriptor of [MyMixin] reaches
    [BaseClass1.prop] on an instance of [MixedIn1] and [BaseClass2.prop] on
    an instance of [MixedIn2]. *)
Lemma resolution_reaches_next_defining_class_witness :
  _get_super_attribute Mixin.ct Mixin.ds Mixin.mixin_prop
    (Instance Mixin.MixedIn1 7) "prop" = Ok (Some Mixin.prop1)
  /\ _get_super_attribute Mixin.ct Mixin.ds Mixin.mixin_prop
       (Instance Mixin.MixedIn2 8) "prop" = Ok (Some Mixin.prop2).
Proof.
  assert (Hpre : forall k, NewStyle Mixin.MyMixin ∉ [NewStyle k] \/ k = 4).
  { intros k. destruct (decide (k = 4)) as [->|Hk]; [by right|left].
    intros Hin. apply elem_of_cons in Hin as [Hin|Hin].
    - injection Hin as Hin. unfold Mixin.MyMixin in Hin. congruence.
    - by apply elem_of_nil in Hin. }
  split.
  - apply (resolution_reaches_next_defining_class Mixin.ct Mixin.ds
             Mixin.mixin_prop (Instance Mixin.MixedIn1 7) "prop"
             (NewStyle Mixin.MyMixin) (NewStyle Mixin.BaseClass1)
             [NewStyle Mixin.MixedIn1] [] [NewStyle Mixin.object_]).
    + vm_compute. reflexivity.
    + reflexivity.
    + by destruct (Hpre Mixin.MixedIn1).
    + constructor.
    + reflexivity.
    + vm_compute. reflexivity.
  - apply (resolution_reaches_next_defining_class Mixin.ct Mixin.ds
             Mixin.mixin_prop (Instance Mixin.MixedIn2 8) "prop"
             (NewStyle Mixin.MyMixin) (NewStyle Mixin.BaseClass2)
             [NewStyle Mixin.MixedIn2] [] [NewStyle Mixin.object_]).
    + vm_compute. reflexivity.
    + reflexivity.
    + by destruct (Hpre Mixin.MixedIn2).
    + constructor.
    + reflexivity.
    + vm_compute. reflexivity.
Defined.
